(** * Weather ingest pipeline: a model of [src/main.py]

    The script samples a weather API over a grid of coordinates and writes each
    reading to MongoDB.  Its functions are embedded here as Rocq functions over
    an explicit world: every call into a library ([requests], [pymongo],
    [datetime], [time], [logging]) is recorded as an event of a trace, and what
    the outside answers is read from an environment of oracles indexed by the
    number of earlier calls of the same kind. *)

From Stdlib Require Import ZArith Floats List Sorted Lia.
From stdpp Require Import gmap strings list fin_maps.

Set Warnings "-inexact-float,-register-all".

Local Open Scope Z_scope.

(** ** Python values *)

(** The values that flow through the script: what [json.loads] produces, plus
    [None], and the timezone-aware datetime of [datetime.now(UTC)] (held as a
    count of microseconds since the epoch).  A [dict] with string keys is a
    finite map. *)
Inductive pyval : Type :=
| VNone
| VBool (b : bool)
| VInt (z : Z)
| VFloat (f : float)
| VStr (s : string)
| VDatetime (utc_micros : Z)
| VList (l : list pyval)
| VDict (d : gmap string pyval).

(** A number handed to [time.sleep]: an [int] or a [float]. *)
Inductive pynum : Type :=
| PyInt (z : Z)
| PyFloat (f : float).

(** ** Exceptions *)

(** The exception classes that the script's library calls raise, with the
    class each one derives from. *)
Inductive exc_class : Type :=
| Exception
| TypeError
| ValueError
| JSONDecodeError
| LookupError
| KeyError
| RequestException
| RequestsConnectionError
| RequestsTimeout
| InvalidURL
| PyMongoError
| ConnectionFailure
| AutoReconnect
| NetworkTimeout
| NotPrimaryError
| ServerSelectionTimeoutError
| OperationFailure
| DuplicateKeyError.

Global Instance exc_class_eq_dec : EqDecision exc_class.
Proof. solve_decision. Defined.

Definition base (c : exc_class) : option exc_class :=
  match c with
  | Exception => None
  | TypeError | ValueError | LookupError | RequestException | PyMongoError =>
      Some Exception
  | JSONDecodeError => Some ValueError
  | KeyError => Some LookupError
  | RequestsConnectionError | RequestsTimeout | InvalidURL =>
      Some RequestException
  | ConnectionFailure | OperationFailure => Some PyMongoError
  | AutoReconnect => Some ConnectionFailure
  | NetworkTimeout | NotPrimaryError | ServerSelectionTimeoutError =>
      Some AutoReconnect
  | DuplicateKeyError => Some OperationFailure
  end.

Fixpoint issubclass_upto (depth : nat) (c parent : exc_class) : bool :=
  if decide (c = parent) then true
  else match depth, base c with
       | S depth', Some b => issubclass_upto depth' b parent
       | _, _ => false
       end.

(** [issubclass c parent]: the test an [except parent:] clause applies to a
    raised exception of class [c].  No chain of bases is longer than four. *)
Definition issubclass (c parent : exc_class) : bool :=
  issubclass_upto 4 c parent.

(** ** The world: environment, trace, and the monad of effects *)

Inductive result (A : Type) : Type :=
| Return (a : A)
| Raise (e : exc_class).
Arguments Return {A} a.
Arguments Raise {A} e.

(** What a library call does: answer, or raise. *)
Inductive outcome (A : Type) : Type :=
| Ok (a : A)
| Err (e : exc_class).
Arguments Ok {A} a.
Arguments Err {A} e.

Record Response : Type := { status_code : Z; text : string }.

Record InsertOneResult : Type := { inserted_id : pyval }.

Inductive level : Type := DEBUG | INFO | WARNING | ERROR.

(** One constructor per logging call of the script, carrying the values its
    message interpolates. *)
Inductive logmsg : Type :=
| MsgConnecting
| MsgPingStart
| MsgPingOk
| MsgPingFailure
| MsgSkipEmpty
| MsgApiFinished (data_length : Z)
| MsgProcessed (processed_data : Z)
| MsgGettingGrid
| MsgGridObtained
| MsgGettingWeather (lat lon : float)
| MsgApiSuccess
| MsgApiError (errmsg : pyval) (status : Z)
| MsgMaxRetries
| MsgRetry (retry : Z) (retry_pause : Z)
| MsgHealthFailure.

Inductive event : Type :=
| EvGet (url : string) (params : gmap string pyval) (timeout : option Z)
| EvPing
| EvNow
| EvInsert (database collection : string) (document : pyval)
| EvSleep (seconds : pynum)
| EvPrint (v : pyval)
| EvLog (lvl : level) (msg : logmsg).

(** The configuration read from [creds/creds.json] and the answers of the
    outside world. *)
Record Env : Type := {
  APIKEY : string;
  MONGODB_URI : string;
  HEALTHCHECK_URL : string;
  json_loads : string → option pyval;      (* [None]: not a JSON document *)
  requests_get : nat → outcome Response;   (* the n-th HTTP request *)
  admin_ping : outcome unit;
  insert_one : nat → outcome InsertOneResult;  (* the n-th insert *)
  utc_now : nat → Z                        (* the n-th reading of the clock *)
}.

Record World : Type := {
  http_calls : nat;
  insert_calls : nat;
  clock_reads : nat;
  trace : list event
}.

Definition initial_world : World :=
  {| http_calls := 0; insert_calls := 0; clock_reads := 0; trace := [] |}.

Definition emit (e : event) (w : World) : World :=
  {| http_calls := http_calls w; insert_calls := insert_calls w;
     clock_reads := clock_reads w; trace := trace w ++ [e] |}.

(** A computation runs from a world to a result and the world it leaves. *)
Definition M (A : Type) : Type := World → result A * World.

Global Instance M_ret : MRet M := λ A a w, (Return a, w).

Global Instance M_bind : MBind M := λ A B f m w,
  match m w with
  | (Return a, w') => f a w'
  | (Raise e, w') => (Raise e, w')
  end.

Definition raise {A : Type} (e : exc_class) : M A := λ w, (Raise e, w).

Definition lift {A : Type} (r : result A) : M A := λ w, (r, w).

(** [try: body  except cls: handler]; the handler receives the exception, so
    that a bare [raise] in it can raise it again. *)
Definition try_except {A : Type} (body : M A) (cls : exc_class)
    (handler : exc_class → M A) : M A := λ w,
  match body w with
  | (Return a, w') => (Return a, w')
  | (Raise e, w') =>
      if issubclass e cls then handler e w' else (Raise e, w')
  end.

Definition log (lvl : level) (msg : logmsg) : M unit :=
  λ w, (Return tt, emit (EvLog lvl msg) w).

(** [logger.exception] logs at level ERROR. *)
Definition log_exception (msg : logmsg) : M unit := log ERROR msg.

Definition sleep (seconds : pynum) : M unit :=
  λ w, (Return tt, emit (EvSleep seconds) w).

Definition print (v : pyval) : M unit :=
  λ w, (Return tt, emit (EvPrint v) w).

(** ** Python built-ins used by the script *)

(** [v[key]] for a string key. *)
Definition getitem (v : pyval) (key : string) : result pyval :=
  match v with
  | VDict d => match d !! key with
               | Some x => Return x
               | None => Raise KeyError
               end
  | _ => Raise TypeError
  end.

(** [v[key] = x] for a string key; only a dict accepts it. *)
Definition setitem (v : pyval) (key : string) (x : pyval) : result pyval :=
  match v with
  | VDict d => Return (VDict (<[key := x]> d))
  | _ => Raise TypeError
  end.

(** [v == {}]: true of the empty dict and of nothing else. *)
Definition eq_empty_dict (v : pyval) : bool :=
  match v with
  | VDict d => bool_decide (d = ∅)
  | _ => false
  end.

(** [len(v)].  A string is held as its bytes, so that for text outside
    ASCII this is the number of bytes of its encoding, where Python counts
    code points; the script takes the length of a reading only to log it. *)
Definition py_len (v : pyval) : result Z :=
  match v with
  | VStr s => Return (Z.of_nat (String.length s))
  | VList l => Return (Z.of_nat (length l))
  | VDict d => Return (Z.of_nat (size d))
  | _ => Raise TypeError
  end.

(** [range(n)]. *)
Definition py_range (n : Z) : list Z := map Z.of_nat (seq 0 (Z.to_nat n)).

(** A [for] loop in a function body: each round either goes on ([None]) or
    leaves the function with a value ([Some v]); a loop that runs out leaves
    [None], which is also what a Python function returns when it falls off
    its end. *)
Fixpoint for_each {A B : Type} (xs : list A) (body : A → M (option B))
    : M (option B) :=
  match xs with
  | [] => mret None
  | x :: rest =>
      r ← body x;
      match r with
      | Some v => mret (Some v)
      | None => for_each rest body
      end
  end.

Definition BASEURL : string :=
  "https://api.openweathermap.org/data/2.5/weather".

Section Script.

Variable env : Env.

(** *** Library calls *)

(** [requests.get(url, params=params, timeout=timeout)]. *)
Definition get (url : string) (params : gmap string pyval)
    (timeout : option Z) : M Response := λ w,
  let w' := {| http_calls := S (http_calls w);
               insert_calls := insert_calls w;
               clock_reads := clock_reads w;
               trace := trace w ++ [EvGet url params timeout] |} in
  match requests_get env (http_calls w) with
  | Ok r => (Return r, w')
  | Err e => (Raise e, w')
  end.

(** [json.loads(text)]. *)
Definition loads (text : string) : M pyval :=
  match json_loads env text with
  | Some v => mret v
  | None => raise JSONDecodeError
  end.

(** [datetime.now(UTC)]. *)
Definition now_utc : M pyval := λ w,
  (Return (VDatetime (utc_now env (clock_reads w))),
   {| http_calls := http_calls w; insert_calls := insert_calls w;
      clock_reads := S (clock_reads w); trace := trace w ++ [EvNow] |}).

(** [client[database][collection].insert_one(document)]. *)
Definition coll_insert_one (database collection : string) (document : pyval)
    : M InsertOneResult := λ w,
  let w' := {| http_calls := http_calls w;
               insert_calls := S (insert_calls w);
               clock_reads := clock_reads w;
               trace := trace w ++ [EvInsert database collection document] |} in
  match insert_one env (insert_calls w) with
  | Ok r => (Return r, w')
  | Err e => (Raise e, w')
  end.

(** [client.admin.command("ping")]. *)
Definition command_ping : M unit := λ w,
  match admin_ping env with
  | Ok _ => (Return tt, emit EvPing w)
  | Err e => (Raise e, emit EvPing w)
  end.

(** *** [get_current_weather] *)

Definition get_current_weather (url appid : string) (lat lon : float)
    (query_dict : gmap string pyval) : M pyval :=
  log DEBUG (MsgGettingWeather lat lon);;
  let requiredparams : gmap string pyval :=
    <["lon" := VFloat lon]>
      (<["lat" := VFloat lat]> (<["appid" := VStr (APIKEY env)]> ∅)) in
  (* {**requiredparams, **query_dict}: the later entries win *)
  let getparams := query_dict ∪ requiredparams in
  response ← get BASEURL getparams None;
  let status := status_code response in
  resp_dict ← loads (text response);
  if status =? 200 then
    log DEBUG MsgApiSuccess;;
    mret resp_dict
  else
    errmsg ← lift (getitem resp_dict "message");
    log ERROR (MsgApiError errmsg status);;
    mret (VDict ∅).

(** *** [insert_data_to_mongodb] *)

(** One round of the retry loop. *)
Definition insert_attempt (database collection : string) (data : pyval)
    (max_retries attempt : Z) : M (option InsertOneResult) :=
  try_except
    (result ← coll_insert_one database collection data;
     print (inserted_id result);;
     mret (Some result))
    AutoReconnect
    (λ e,
       if attempt + 1 =? max_retries then
         log ERROR MsgMaxRetries;;
         raise e
       else
         let retry_pause := (attempt + 1) ^ 2 in
         log WARNING (MsgRetry (attempt + 1) retry_pause);;
         sleep (PyInt retry_pause);;
         mret None).

Definition insert_data_to_mongodb (database collection : string)
    (data : pyval) (max_retries : Z) : M (option InsertOneResult) :=
  data ← lift (setitem data "processed_at" VNone);
  t ← now_utc;
  data ← lift (setitem data "inserted_at" t);
  for_each (py_range (max_retries + 1))
           (insert_attempt database collection data max_retries).

(** *** [healthcheck] *)

Definition healthcheck (hcurl : string) : M unit :=
  try_except
    (get hcurl ∅ (Some 10);; mret tt)
    RequestException
    (λ _, log_exception MsgHealthFailure).

End Script.

(** ** The grid generator *)

Global Instance result_ret : MRet result := λ A a, Return a.

Global Instance result_bind : MBind result := λ A B f r,
  match r with
  | Return a => f a
  | Raise e => Raise e
  end.

(** The rows of the grid: every latitude, in order, paired with every
    longitude, in order
    ([[(lat, lon) for lat in lat_points for lon in lon_points]]). *)
Definition cross {F : Type} (lat_points lon_points : list F) : list (F * F) :=
  flat_map (λ lat, map (λ lon, (lat, lon)) lon_points) lat_points.

(** The computation of [get_grid_coordinates] (its two log lines are added
    below), over any type of numbers [F] with a comparison [ltb] (Python's
    [<]) and an implementation [linspace] of [numpy.linspace(start, stop,
    num)]; the script runs it on binary64 floats, see
    [get_grid_coordinates] below. *)
Section GridGenerator.

Context {F : Type}.
Variable ltb : F → F → bool.
Variable linspace : F → F → Z → result (list F).

(** [min(xs)]: the first of the least elements; an empty list is a
    ValueError. *)
Definition py_min (xs : list F) : result F :=
  match xs with
  | [] => Raise ValueError
  | x :: rest => Return (fold_left (λ m y, if ltb y m then y else m) rest x)
  end.

(** [max(xs)]: the first of the greatest elements. *)
Definition py_max (xs : list F) : result F :=
  match xs with
  | [] => Raise ValueError
  | x :: rest => Return (fold_left (λ m y, if ltb m y then y else m) rest x)
  end.

Definition grid_coordinates (corners : list (F * F)) (grid : Z)
    : result (list (F * F)) :=
  let lat := map fst corners in
  let lon := map snd corners in
  min_lat ← py_min lat;
  max_lat ← py_max lat;
  lat_points ← linspace min_lat max_lat grid;
  min_lon ← py_min lon;
  max_lon ← py_max lon;
  lon_points ← linspace min_lon max_lon grid;
  mret (cross lat_points lon_points).


End GridGenerator.

(** *** The grid over binary64 floats *)

Fixpoint float_of_nat (n : nat) : float :=
  match n with
  | O => 0%float
  | S k => (float_of_nat k + 1)%float
  end.

(** [numpy.linspace(start, stop, num)] on floats, as numpy computes it:
    a negative [num] is a ValueError; the indices [arange(0, num)] are
    multiplied by [step = (stop - start) / div], [div = num - 1] (when
    [step] rounds to zero they are divided by [div] and multiplied by the
    difference instead; when [div] is not positive the step is undefined and
    they are multiplied by the difference), [start] is added, and with two
    samples or more the last one is overwritten by [stop].  Every operation
    rounds. *)
Definition np_linspace (start stop : float) (num : Z) : result (list float) :=
  if num <? 0 then Raise ValueError
  else
    let div := float_of_nat (Z.to_nat (num - 1)) in
    let delta := (stop - start)%float in
    let y := map float_of_nat (seq 0 (Z.to_nat num)) in
    let y :=
      if 0 <? num - 1 then
        let step := (delta / div)%float in
        if (step =? 0)%float then map (λ fi, (fi / div * delta)%float) y
        else map (λ fi, (fi * step)%float) y
      else map (λ fi, (fi * delta)%float) y in
    let y := map (λ v, (v + start)%float) y in
    Return (if 1 <? num then <[Z.to_nat (num - 1) := stop]> y else y).

Definition COORDINATES : list (float * float) :=
  [ (2.187184, 117.639600);
    (2.066438, 117.639600);
    (2.066438, 117.560116);
    (2.187184, 117.560116) ]%float.

Definition get_grid_coordinates (corners : list (float * float)) (grid : Z)
    : M (list (float * float)) :=
  log INFO MsgGettingGrid;;
  grid_coords ←
    lift (grid_coordinates PrimFloat.ltb np_linspace corners grid);
  log INFO MsgGridObtained;;
  mret grid_coords.

(** ** The ingest loop *)

Section Main.

Variable env : Env.

(** The loop body from the [else] branch on: persist the reading, count it,
    report liveness at every 25th, pause. *)
Definition persist_reading (processed_data : Z) (data : pyval) : M Z :=
  data_length ← lift (py_len data);
  log DEBUG (MsgApiFinished data_length);;
  insert_data_to_mongodb env "weather-tracking-system" "open-weather-raw"
                         data 5;;
  let processed_data := processed_data + 1 in
  (if processed_data `mod` 25 =? 0 then
     log INFO (MsgProcessed processed_data);;
     healthcheck env (HEALTHCHECK_URL env)
   else mret tt);;
  sleep (PyFloat 1.5);;
  mret processed_data.

(** The body of [for lat, lon in weather_area]; [processed_data] is threaded
    through, and the [continue] leaves the body with it unchanged. *)
Definition ingest_point (processed_data : Z) (point : float * float) : M Z :=
  let '(lat, lon) := point in
  data ← get_current_weather env BASEURL (APIKEY env) lat lon ∅;
  if eq_empty_dict data then
    log ERROR MsgSkipEmpty;;
    mret processed_data
  else
    persist_reading processed_data data.

(** One walk over the grid. *)
Fixpoint ingest_grid (weather_area : list (float * float))
    (processed_data : Z) : M Z :=
  match weather_area with
  | [] => mret processed_data
  | point :: rest =>
      processed_data ← ingest_point processed_data point;
      ingest_grid rest processed_data
  end.

(** [while True]: the loop has no exit, so a run is observed over its first
    [cycles] walks; [Return] then means that they all completed, and [Raise]
    that the process died inside them. *)
Fixpoint ingest_forever (cycles : nat) (weather_area : list (float * float))
    (processed_data : Z) : M Z :=
  match cycles with
  | O => mret processed_data
  | S cycles' =>
      processed_data ← ingest_grid weather_area processed_data;
      ingest_forever cycles' weather_area processed_data
  end.

Definition main (cycles : nat) : M Z :=
  let processed_data := 0 in
  weather_area ← get_grid_coordinates COORDINATES 8;
  log INFO MsgConnecting;;
  try_except
    (log INFO MsgPingStart;;
     command_ping env;;
     log INFO MsgPingOk)
    Exception
    (λ _, log_exception MsgPingFailure);;
  ingest_forever cycles weather_area processed_data.

End Main.

(** * Observations and scenarios *)

(** ** Worlds and traces *)

(** [advance w n evs]: the world [w] after [n] more inserts that left the
    events [evs]. *)
Definition advance (w : World) (n : nat) (evs : list event) : World :=
  {| http_calls := http_calls w; insert_calls := n + insert_calls w;
     clock_reads := clock_reads w; trace := trace w ++ evs |}.

(** The world after one reading of the clock. *)
Definition after_now (w : World) : World :=
  {| http_calls := http_calls w; insert_calls := insert_calls w;
     clock_reads := S (clock_reads w); trace := trace w ++ [EvNow] |}.

(** The world after one more HTTP request that left the events [evs]. *)
Definition fetched (w : World) (evs : list event) : World :=
  {| http_calls := S (http_calls w); insert_calls := insert_calls w;
     clock_reads := clock_reads w; trace := trace w ++ evs |}.

Definition sleeps_of (evs : list event) : list pynum :=
  omap (λ ev, match ev with EvSleep s => Some s | _ => None end) evs.

Definition inserted_documents (evs : list event) : list pyval :=
  omap (λ ev, match ev with EvInsert _ _ doc => Some doc | _ => None end) evs.

(** The requests in a trace: url, query, timeout. *)
Definition requests_of (evs : list event)
    : list (string * gmap string pyval * option Z) :=
  omap (λ ev, match ev with
              | EvGet url params timeout => Some (url, params, timeout)
              | _ => None
              end) evs.

Definition not_now (ev : event) : Prop := ev ≠ EvNow.

(** ** Events of the persistence writer *)

(** The document handed to the driver: the reading with its two ingestion
    fields. *)
Definition stamp (d : gmap string pyval) (t : Z) : gmap string pyval :=
  <["inserted_at" := VDatetime t]> (<["processed_at" := VNone]> d).

(** The pauses of [n] retries: 1, 4, 9, ... seconds. *)
Definition pauses (n : nat) : list pynum :=
  map (λ i, PyInt (Z.of_nat (S i) ^ 2)) (seq 0 n).

(** The events of a round of the retry loop that failed and is retried. *)
Definition failed_round (database collection : string) (doc : pyval)
    (attempt : Z) : list event :=
  [ EvInsert database collection doc;
    EvLog WARNING (MsgRetry (attempt + 1) ((attempt + 1) ^ 2));
    EvSleep (PyInt ((attempt + 1) ^ 2)) ].

(** The events of [n] such rounds, from attempt [first] on. *)
Definition failed_rounds (database collection : string) (doc : pyval)
    (first : nat) (n : nat) : list event :=
  flat_map (λ i, failed_round database collection doc (Z.of_nat i))
           (seq first n).

Definition reconnect_error (o : outcome InsertOneResult) : Prop :=
  ∃ e, o = Err e ∧ issubclass e AutoReconnect = true.

(** ** Events of the weather fetcher and of the loop *)

(** The query that [get_current_weather] sends. *)
Definition query (env : Env) (lat lon : float)
    (query_dict : gmap string pyval) : gmap string pyval :=
  query_dict ∪ <["lon" := VFloat lon]>
                 (<["lat" := VFloat lat]>
                    (<["appid" := VStr (APIKEY env)]> ∅)).

(** The events up to the request. *)
Definition request_events (env : Env) (lat lon : float)
    (query_dict : gmap string pyval) : list event :=
  [ EvLog DEBUG (MsgGettingWeather lat lon);
    EvGet BASEURL (query env lat lon query_dict) None ].

(** The events of a grid point skipped after a response with status
    [status] and upstream message [errmsg]. *)
Definition skipped_point_events (env : Env) (lat lon : float)
    (errmsg : pyval) (status : Z) : list event :=
  request_events env lat lon ∅
  ++ [EvLog ERROR (MsgApiError errmsg status); EvLog ERROR MsgSkipEmpty].

(** The outcomes of a request that [healthcheck] handles: a response, or an
    exception of the [requests] library, all of which derive from
    [RequestException]. *)
Definition response_or_request_exception (o : outcome Response) : Prop :=
  match o with
  | Ok _ => True
  | Err e => issubclass e RequestException = true
  end.

(** The events of [main] before its loop. *)
Definition startup_events (env : Env) : list event :=
  [ EvLog INFO MsgGettingGrid; EvLog INFO MsgGridObtained;
    EvLog INFO MsgConnecting; EvLog INFO MsgPingStart; EvPing;
    match admin_ping env with
    | Ok _ => EvLog INFO MsgPingOk
    | Err _ => EvLog ERROR MsgPingFailure
    end ].

Definition started (env : Env) (w : World) : World :=
  {| http_calls := http_calls w; insert_calls := insert_calls w;
     clock_reads := clock_reads w; trace := trace w ++ startup_events env |}.

(** ** The grid of the script, in binary64 *)

(** The grid of the script, computed once. *)
Definition weather_area : list (float * float) :=
  Eval vm_compute in
    match grid_coordinates PrimFloat.ltb np_linspace COORDINATES 8 with
    | Return grid_coords => grid_coords
    | Raise _ => []
    end.

Definition script_lat_points : list float :=
  Eval vm_compute in
    match np_linspace 2.066438 2.187184 8 with
    | Return points => points
    | Raise _ => []
    end.

Definition script_lon_points : list float :=
  Eval vm_compute in
    match np_linspace 117.560116 117.6396 8 with
    | Return points => points
    | Raise _ => []
    end.

Fixpoint float_nondecreasing (l : list float) : bool :=
  match l with
  | x :: (y :: _) as rest => (x <=? y)%float && float_nondecreasing rest
  | _ => true
  end.

(** ** The order of binary64 numbers *)

(** The place of a float that is not NaN in the order of [<], as
    [SFcompare] decides it: the sign class first, then the exponent, then
    the mantissa (both counted downwards for negative numbers); the two
    zeros share one place. *)
Definition rank (f : spec_float) : Z * Z * Z :=
  match f with
  | S754_zero _ => (0, 0, 0)
  | S754_infinity true => (-2, 0, 0)
  | S754_infinity false => (2, 0, 0)
  | S754_nan => (0, 0, 0)
  | S754_finite true m e => (-1, - e, - Z.pos m)
  | S754_finite false m e => (1, e, Z.pos m)
  end.

Definition rank_lt (a b : Z * Z * Z) : Prop :=
  let '(a1, a2, a3) := a in
  let '(b1, b2, b3) := b in
  a1 < b1 ∨ (a1 = b1 ∧ (a2 < b2 ∨ (a2 = b2 ∧ a3 < b3))).

Definition frank (x : float) : Z * Z * Z := rank (Prim2SF x).

(** A float other than NaN. *)
Definition is_number (x : float) : Prop := Prim2SF x ≠ S754_nan.

(** Python's [x <= y] on floats. *)
Definition float_le (x y : float) : Prop := (x <=? y)%float = true.

(** An axis whose first sample compares equal to [lo] and whose samples do
    not decrease: a test on the samples that [numpy.linspace] produced,
    which holds when no operation overflowed or met a NaN. *)
Definition starts_at (lo : float) (points : list float) : bool :=
  match points with
  | first :: _ => (first =? lo)%float
  | [] => false
  end.

Definition axis_regular (lo : float) (points : list float) : bool :=
  starts_at lo points && float_nondecreasing points.

(** Four corners whose latitudes are further apart than the greatest
    float. *)
Definition far_corners : list (float * float) :=
  [ (1e308, 20); (-1e308, 20); (-1e308, 10); (1e308, 10) ]%float.

(** A float that is neither NaN nor the negative zero: among such floats,
    two that compare equal are the same float. *)
Definition ordinary (x : float) : bool :=
  match Prim2SF x with
  | S754_nan | S754_zero true => false
  | _ => true
  end.

(** The corners for which both axes of the grid are regular. *)
Definition grid_regular (corners : list (float * float)) (grid : Z) : bool :=
  let lat := map fst corners in
  let lon := map snd corners in
  match py_min PrimFloat.ltb lat, py_max PrimFloat.ltb lat,
        py_min PrimFloat.ltb lon, py_max PrimFloat.ltb lon with
  | Return min_lat, Return max_lat, Return min_lon, Return max_lon =>
      match np_linspace min_lat max_lat grid,
            np_linspace min_lon max_lon grid with
      | Return lat_points, Return lon_points =>
          axis_regular min_lat lat_points && axis_regular min_lon lon_points
      | _, _ => false
      end
  | _, _, _, _ => false
  end.

(** ** Sample runs *)

Definition dq : string := String (Ascii.ascii_of_nat 34) EmptyString.

(** The body [{}]. *)
Definition body_empty_object : string := "{}".

(** The body [{"temp": 300}]. *)
Definition body_temp : string := "{" +:+ dq +:+ "temp" +:+ dq +:+ ": 300}".

(** The body [{"message": "city not found"}]. *)
Definition body_not_found : string :=
  "{" +:+ dq +:+ "message" +:+ dq +:+ ": " +:+ dq +:+ "city not found"
      +:+ dq +:+ "}".

(** A body that is no JSON document. *)
Definition body_html : string := "<html>502 Bad Gateway</html>".

(** [json.loads] on the sample bodies. *)
Definition sample_loads (s : string) : option pyval :=
  if decide (s = body_empty_object) then Some (VDict ∅)
  else if decide (s = body_temp) then Some (VDict {["temp" := VInt 300]})
  else if decide (s = body_not_found) then
    Some (VDict {["message" := VStr "city not found"]})
  else None.

Definition sample_env (http : nat → outcome Response)
    (inserts : nat → outcome InsertOneResult) : Env :=
  {| APIKEY := "owm-key";
     MONGODB_URI := "mongodb://localhost:27017";
     HEALTHCHECK_URL := "https://hc.example/ping";
     json_loads := sample_loads;
     requests_get := http;
     admin_ping := Ok tt;
     insert_one := inserts;
     utc_now := λ n, 1700000000000000 + Z.of_nat n |}.

Definition stored (id : Z) : outcome InsertOneResult :=
  Ok {| inserted_id := VInt id |}.

(** The store never comes back. *)
Definition store_down : nat → outcome InsertOneResult :=
  λ _, Err AutoReconnect.

(** Three reconnect failures, then the store answers. *)
Definition store_back_at_4 : nat → outcome InsertOneResult :=
  λ n, if (n <? 3)%nat then Err AutoReconnect else stored 7.

Definition store_up : nat → outcome InsertOneResult :=
  λ n, stored (Z.of_nat n).

Definition no_http : nat → outcome Response :=
  λ _, Err RequestsConnectionError.

(** An HTTP side that gives the same response to every request. *)
Definition http_always (status : Z) (body : string)
    : nat → outcome Response :=
  λ _, Ok {| status_code := status; text := body |}.

(** An HTTP side that answers the requests in turn, and fails to connect
    once the list has run out. *)
Definition http_in_turn (answers : list (Z * string))
    : nat → outcome Response :=
  λ n, match answers !! n with
       | Some (status, body) => Ok {| status_code := status; text := body |}
       | None => Err RequestsConnectionError
       end.

Definition reading_temp : gmap string pyval := {["temp" := VInt 300]}.

(** ** Tallies over a trace *)

(** The identifiers printed: one per insert that the store acknowledged. *)
Definition acknowledged (evs : list event) : list pyval :=
  omap (λ ev, match ev with EvPrint v => Some v | _ => None end) evs.

(** The requests sent with a timeout: those of [healthcheck]. *)
Definition pings (evs : list event) : list string :=
  omap (λ ev, match ev with
              | EvGet url _ (Some _) => Some url
              | _ => None
              end) evs.

(** The sleeps of a [float] number of seconds: the read intervals (the
    pauses of the retry loop are [int]s). *)
Definition read_intervals (evs : list event) : list float :=
  omap (λ ev, match ev with
              | EvSleep (PyFloat seconds) => Some seconds
              | _ => None
              end) evs.

(** What the three tallies must be when the loop has counted
    [processed_data] readings. *)
Definition tallied (processed_data : Z) (evs : list event) : Prop :=
  0 ≤ processed_data
  ∧ Z.of_nat (length (acknowledged evs)) = processed_data
  ∧ Z.of_nat (length (read_intervals evs)) = processed_data
  ∧ Z.of_nat (length (pings evs)) = processed_data `div` 25.

(** Events that change no tally. *)
Definition quiet (evs : list event) : Prop :=
  acknowledged evs = [] ∧ pings evs = [] ∧ read_intervals evs = [].

(** The number of identifiers that a run of the retry loop prints: one when
    it returns a result, none otherwise. *)
Definition acknowledgements (r : result (option InsertOneResult)) : nat :=
  match r with
  | Return (Some _) => 1
  | _ => 0
  end.

(** An upstream that answers a request with an error status and a JSON
    object holding a [message]. *)
Definition upstream_error (env : Env) (o : outcome Response) : Prop :=
  ∃ resp d errmsg,
    o = Ok resp ∧ status_code resp ≠ 200
    ∧ json_loads env (text resp) = Some (VDict d)
    ∧ d !! "message" = Some errmsg.

(** More sample runs. *)

(** The store refuses every document as a duplicate. *)
Definition store_rejects : nat → outcome InsertOneResult :=
  λ _, Err DuplicateKeyError.

(** The seconds slept in the pauses of the retry loop: the sleeps of an
    [int] number of seconds. *)
Fixpoint retry_seconds (evs : list event) : Z :=
  match evs with
  | [] => 0
  | EvSleep (PyInt seconds) :: rest => seconds + retry_seconds rest
  | _ :: rest => retry_seconds rest
  end.

(** * Properties *)

(** ** Running computations *)

Lemma advance_advance w n1 evs1 n2 evs2 :
  advance (advance w n1 evs1) n2 evs2 = advance w (n1 + n2) (evs1 ++ evs2).
Proof.
  unfold advance; simpl. f_equal; [lia | by rewrite app_assoc].
Qed.

Lemma advance_0_nil w : advance w 0 [] = w.
Proof. destruct w; unfold advance; simpl. by rewrite app_nil_r. Qed.

Ltac run :=
  unfold mbind, mret, M_bind, M_ret, lift, raise, log_exception, log, sleep,
    print, emit; simpl.

Section RetryLoop.

Variable env : Env.
Variables database collection : string.
Variable doc : pyval.
Variable max_retries : Z.

Lemma insert_attempt_ok attempt w r :
  insert_one env (insert_calls w) = Ok r →
  insert_attempt env database collection doc max_retries attempt w
  = (Return (Some r),
     advance w 1 [EvInsert database collection doc; EvPrint (inserted_id r)]).
Proof.
  intros Hok. unfold insert_attempt, try_except, coll_insert_one. run.
  rewrite Hok. unfold advance; simpl. by rewrite <- app_assoc.
Qed.

Lemma insert_attempt_retry attempt w :
  reconnect_error (insert_one env (insert_calls w)) →
  attempt + 1 ≠ max_retries →
  insert_attempt env database collection doc max_retries attempt w
  = (Return None,
     advance w 1 (failed_round database collection doc attempt)).
Proof.
  intros (e & Herr & Hsub) Hne.
  unfold insert_attempt, try_except, coll_insert_one. run.
  rewrite Herr, Hsub.
  destruct (Z.eqb_spec (attempt + 1) max_retries) as [?|_]; [done|].
  run. unfold advance, failed_round; simpl. by rewrite <- !app_assoc.
Qed.

Lemma insert_attempt_final attempt w e :
  insert_one env (insert_calls w) = Err e →
  issubclass e AutoReconnect = true →
  attempt + 1 = max_retries →
  insert_attempt env database collection doc max_retries attempt w
  = (Raise e,
     advance w 1 [EvInsert database collection doc; EvLog ERROR MsgMaxRetries]).
Proof.
  intros Herr Hsub Heq.
  unfold insert_attempt, try_except, coll_insert_one. run.
  rewrite Herr, Hsub.
  destruct (Z.eqb_spec (attempt + 1) max_retries) as [_|?]; [|done].
  run. unfold advance; simpl. by rewrite <- !app_assoc.
Qed.

Lemma insert_attempt_other attempt w e :
  insert_one env (insert_calls w) = Err e →
  issubclass e AutoReconnect = false →
  insert_attempt env database collection doc max_retries attempt w
  = (Raise e, advance w 1 [EvInsert database collection doc]).
Proof.
  intros Herr Hsub.
  unfold insert_attempt, try_except, coll_insert_one. run.
  by rewrite Herr, Hsub.
Qed.

(** [n] rounds that fail with a reconnect error, none of them the one that
    gives up, leave the loop at the next round. *)
Lemma retry_rounds n : ∀ first m w,
  (∀ i, (i < n)%nat →
        reconnect_error (insert_one env (insert_calls w + i))) →
  (∀ i, (i < n)%nat → Z.of_nat (first + i) + 1 ≠ max_retries) →
  for_each (map Z.of_nat (seq first (n + m)))
           (insert_attempt env database collection doc max_retries) w
  = for_each (map Z.of_nat (seq (first + n) m))
             (insert_attempt env database collection doc max_retries)
             (advance w n (failed_rounds database collection doc first n)).
Proof.
  induction n as [|n IH]; intros first m w Hfail Hne.
  - rewrite Nat.add_0_r. unfold failed_rounds; simpl.
    by rewrite advance_0_nil.
  - simpl. unfold mbind at 1, M_bind at 1.
    rewrite insert_attempt_retry.
    + rewrite IH.
      * rewrite advance_advance. unfold failed_rounds. simpl seq.
        simpl flat_map. do 3 f_equal. lia.
      * intros i Hi. simpl.
        replace (S (insert_calls w + i)) with (insert_calls w + S i)%nat by lia.
        apply Hfail. lia.
      * intros i Hi. replace (S first + i)%nat with (first + S i)%nat by lia.
        apply Hne. lia.
    + specialize (Hfail 0%nat). rewrite Nat.add_0_r in Hfail.
      apply Hfail. lia.
    + specialize (Hne 0%nat). rewrite Nat.add_0_r in Hne. apply Hne. lia.
Qed.

End RetryLoop.

(** ** The persistence writer *)

Section PersistenceWriter.

Variable env : Env.
Variables database collection : string.

Lemma insert_data_to_mongodb_dict d max_retries w :
  insert_data_to_mongodb env database collection (VDict d) max_retries w
  = for_each (py_range (max_retries + 1))
      (insert_attempt env database collection
         (VDict (stamp d (utc_now env (clock_reads w)))) max_retries)
      (after_now w).
Proof. reflexivity. Qed.

Lemma sleeps_of_app evs1 evs2 :
  sleeps_of (evs1 ++ evs2) = sleeps_of evs1 ++ sleeps_of evs2.
Proof. unfold sleeps_of. apply omap_app. Qed.

Lemma sleeps_of_failed_rounds doc n : ∀ first,
  sleeps_of (failed_rounds database collection doc first n)
  = map (λ i, PyInt (Z.of_nat (S i) ^ 2)) (seq first n).
Proof.
  induction n as [|n IH]; intros first; [done|].
  unfold failed_rounds in *. cbn [seq flat_map map].
  rewrite sleeps_of_app, IH.
  change (sleeps_of (failed_round database collection doc (Z.of_nat first)))
    with [PyInt ((Z.of_nat first + 1) ^ 2)].
  simpl app. do 3 f_equal. lia.
Qed.

(** With [k] reconnect failures and then a success, [k < max_retries], the
    call returns the driver's result from attempt [k + 1]. *)
Lemma insert_succeeds_after d max_retries (k : nat) r w :
  Z.of_nat k < max_retries →
  (∀ i, (i < k)%nat →
        reconnect_error (insert_one env (insert_calls w + i))) →
  insert_one env (insert_calls w + k) = Ok r →
  let doc := VDict (stamp d (utc_now env (clock_reads w))) in
  insert_data_to_mongodb env database collection (VDict d) max_retries w
  = (Return (Some r),
     advance (after_now w) (k + 1)
       (failed_rounds database collection doc 0 k
        ++ [EvInsert database collection doc; EvPrint (inserted_id r)])).
Proof.
  intros Hk Hfail Hok doc. rewrite insert_data_to_mongodb_dict. fold doc.
  unfold py_range.
  replace (Z.to_nat (max_retries + 1))
    with (k + S (Z.to_nat (max_retries + 1) - S k))%nat by lia.
  rewrite retry_rounds; [| exact Hfail | intros i Hi; simpl; lia].
  simpl. unfold mbind at 1, M_bind at 1.
  rewrite insert_attempt_ok with (r := r);
    [| simpl; by rewrite Nat.add_comm].
  run. by rewrite advance_advance.
Qed.

(** With reconnect failures only and [max_retries >= 1], the call raises the
    error of attempt [max_retries], after [max_retries - 1] pauses. *)
Lemma insert_gives_up d max_retries e w :
  1 ≤ max_retries →
  (∀ i, (i < Z.to_nat max_retries - 1)%nat →
        reconnect_error (insert_one env (insert_calls w + i))) →
  insert_one env (insert_calls w + (Z.to_nat max_retries - 1)) = Err e →
  issubclass e AutoReconnect = true →
  let doc := VDict (stamp d (utc_now env (clock_reads w))) in
  insert_data_to_mongodb env database collection (VDict d) max_retries w
  = (Raise e,
     advance (after_now w) (Z.to_nat max_retries)
       (failed_rounds database collection doc 0 (Z.to_nat max_retries - 1)
        ++ [EvInsert database collection doc; EvLog ERROR MsgMaxRetries])).
Proof.
  intros Hm Hfail Herr Hsub doc. rewrite insert_data_to_mongodb_dict. fold doc.
  unfold py_range.
  replace (Z.to_nat (max_retries + 1))
    with ((Z.to_nat max_retries - 1) + 2)%nat by lia.
  rewrite retry_rounds; [| exact Hfail | intros i Hi; simpl; lia].
  simpl. unfold mbind at 1, M_bind at 1.
  rewrite insert_attempt_final with (e := e).
  - rewrite advance_advance. do 2 f_equal. lia.
  - simpl. by rewrite Nat.add_comm.
  - done.
  - lia.
Qed.

End PersistenceWriter.

(** [max_retries = 2] and a store that never comes back: the call raises at
    the second attempt, after one pause of one second. *)
Lemma insert_gives_up_witness :
  insert_data_to_mongodb (sample_env no_http store_down)
    "weather-tracking-system" "open-weather-raw" (VDict reading_temp) 2
    initial_world
  = (Raise AutoReconnect,
     {| http_calls := 0; insert_calls := 2; clock_reads := 1;
        trace :=
          [ EvNow;
            EvInsert "weather-tracking-system" "open-weather-raw"
              (VDict (stamp reading_temp 1700000000000000));
            EvLog WARNING (MsgRetry 1 1);
            EvSleep (PyInt 1);
            EvInsert "weather-tracking-system" "open-weather-raw"
              (VDict (stamp reading_temp 1700000000000000));
            EvLog ERROR MsgMaxRetries ] |}).
Proof.
  apply (insert_gives_up (sample_env no_http store_down)
           "weather-tracking-system" "open-weather-raw" reading_temp 2
           AutoReconnect initial_world).
  - lia.
  - intros i Hi. exists AutoReconnect. split; reflexivity.
  - reflexivity.
  - reflexivity.
Defined.

(** *** Whatever the driver answers *)

Section PersistedDocument.

Variable env : Env.
Variables database collection : string.
Variable doc : pyval.
Variable max_retries : Z.

(** A round of the retry loop is one insert of [doc] and no reading of the
    clock. *)
Lemma insert_attempt_events attempt w :
  ∃ evs,
    (insert_attempt env database collection doc max_retries attempt w).2
    = advance w 1 evs
    ∧ Forall not_now evs
    ∧ inserted_documents evs = [doc].
Proof.
  destruct (insert_one env (insert_calls w)) as [r|e] eqn:Hone.
  - rewrite insert_attempt_ok with (r := r) by done.
    eexists; split; [done|]. split; [|done]. by repeat constructor.
  - destruct (issubclass e AutoReconnect) eqn:Hsub.
    + destruct (decide (attempt + 1 = max_retries)) as [Heq|Hne].
      * rewrite insert_attempt_final with (e := e) by done.
        eexists; split; [done|]. split; [|done]. by repeat constructor.
      * rewrite insert_attempt_retry; [| by exists e | done].
        eexists; split; [done|]. split; [|done]. by repeat constructor.
    + rewrite insert_attempt_other with (e := e) by done.
      eexists; split; [done|]. split; [|done]. by repeat constructor.
Qed.

Lemma inserted_documents_app evs1 evs2 :
  inserted_documents (evs1 ++ evs2)
  = inserted_documents evs1 ++ inserted_documents evs2.
Proof. unfold inserted_documents. apply omap_app. Qed.

Lemma retry_loop_events attempts : ∀ w,
  ∃ n evs,
    (for_each attempts
       (insert_attempt env database collection doc max_retries) w).2
    = advance w n evs
    ∧ Forall not_now evs
    ∧ inserted_documents evs = replicate n doc.
Proof.
  induction attempts as [|attempt rest IH]; intros w.
  - exists 0%nat, []. split; [by rewrite advance_0_nil|]. by split.
  - simpl. unfold mbind at 1, M_bind at 1.
    destruct (insert_attempt_events attempt w) as (evs1 & Hw1 & Hevs1 & Hd1).
    destruct (insert_attempt env database collection doc max_retries
                attempt w) as [[[r|]|e] w1]; simpl in Hw1; subst w1.
    + by exists 1%nat, evs1.
    + destruct (IH (advance w 1 evs1)) as (n & evs2 & Hw2 & Hevs2 & Hd2).
      exists (1 + n)%nat, (evs1 ++ evs2). rewrite Hw2, advance_advance.
      split; [done|]. split; [by apply Forall_app|].
      by rewrite inserted_documents_app, Hd1, Hd2.
    + by exists 1%nat, evs1.
Qed.

End PersistedDocument.

(** *** Retries and the stamped document *)

(** C1 (does not hold of the code; this is what the code does instead):
    with [max_retries = 0] and a reconnect failure at the only attempt,
    [insert_data_to_mongodb] neither raises nor returns an identifier: it
    pauses one second and returns [None]. *)
Theorem insert_zero_retries_returns_none env database collection d w :
  reconnect_error (insert_one env (insert_calls w)) →
  insert_data_to_mongodb env database collection (VDict d) 0 w
  = (Return None,
     advance (after_now w) 1
       (failed_round database collection
          (VDict (stamp d (utc_now env (clock_reads w)))) 0)).
Proof.
  intros Hfail. rewrite insert_data_to_mongodb_dict.
  change (py_range (0 + 1)) with [0]. simpl for_each.
  unfold mbind at 1, M_bind at 1.
  by rewrite insert_attempt_retry.
Qed.

Lemma insert_zero_retries_returns_none_witness :
  insert_data_to_mongodb (sample_env no_http store_down)
    "weather-tracking-system" "open-weather-raw" (VDict reading_temp) 0
    initial_world
  = (Return None,
     {| http_calls := 0; insert_calls := 1; clock_reads := 1;
        trace :=
          [ EvNow;
            EvInsert "weather-tracking-system" "open-weather-raw"
              (VDict (stamp reading_temp 1700000000000000));
            EvLog WARNING (MsgRetry 1 1);
            EvSleep (PyInt 1) ] |}).
Proof.
  apply (insert_zero_retries_returns_none (sample_env no_http store_down)
           "weather-tracking-system" "open-weather-raw" reading_temp
           initial_world).
  exists AutoReconnect. split; reflexivity.
Defined.

(** C5: when the first [k] attempts fail with a reconnect error and the next
    one succeeds, [k < max_retries], [insert_data_to_mongodb] returns the
    result of attempt [k + 1], and the pause after failed attempt [n] is
    [n * n] seconds: the trace is the clock reading, then for each failed
    attempt the insert, the warning and the sleep, then the insert that
    succeeded.  At [k = 3], [max_retries = 5]: attempt 4, sleeps 1, 4, 9. *)
Theorem insert_retry_pauses env database collection d max_retries
    (k : nat) r w :
  Z.of_nat k < max_retries →
  (∀ i, (i < k)%nat →
        reconnect_error (insert_one env (insert_calls w + i))) →
  insert_one env (insert_calls w + k) = Ok r →
  let doc := VDict (stamp d (utc_now env (clock_reads w))) in
  ∃ w' evs,
    insert_data_to_mongodb env database collection (VDict d) max_retries w
    = (Return (Some r), w')
    ∧ insert_calls w' = (insert_calls w + k + 1)%nat
    ∧ trace w' = trace w ++ evs
    ∧ evs = EvNow :: failed_rounds database collection doc 0 k
                  ++ [EvInsert database collection doc;
                      EvPrint (inserted_id r)]
    ∧ sleeps_of evs = pauses k.
Proof.
  intros Hk Hfail Hok doc.
  eexists _, _. split; [by apply insert_succeeds_after|].
  split; [simpl; lia|]. split; [simpl; by rewrite <- app_assoc|].
  split; [done|].
  change (EvNow :: ?l) with ([EvNow] ++ l).
  rewrite !sleeps_of_app, sleeps_of_failed_rounds. simpl.
  by rewrite app_nil_r.
Qed.

Lemma insert_retry_pauses_witness :
  ∃ w',
    insert_data_to_mongodb (sample_env no_http store_back_at_4)
      "weather-tracking-system" "open-weather-raw" (VDict reading_temp) 5
      initial_world
    = (Return (Some {| inserted_id := VInt 7 |}), w')
    ∧ insert_calls w' = 4%nat
    ∧ sleeps_of (trace w') = [PyInt 1; PyInt 4; PyInt 9].
Proof.
  destruct (insert_retry_pauses (sample_env no_http store_back_at_4)
              "weather-tracking-system" "open-weather-raw" reading_temp 5 3
              {| inserted_id := VInt 7 |} initial_world)
    as (w' & evs & Hrun & Hcalls & Htrace & _ & Hsleeps).
  - lia.
  - intros i Hi. exists AutoReconnect. split; [|reflexivity].
    simpl. unfold store_back_at_4.
    destruct (Nat.ltb_spec i 3); [done | lia].
  - reflexivity.
  - exists w'. split; [exact Hrun|]. split; [exact Hcalls|].
    rewrite Htrace. exact Hsleeps.
Defined.


(** ** The weather fetcher *)

Section WeatherFetcher.

Variable env : Env.
Variables url appid : string.
Variables lat lon : float.
Variable query_dict : gmap string pyval.

(** The request failed below HTTP: the exception leaves the function. *)
Lemma get_current_weather_no_response w e :
  requests_get env (http_calls w) = Err e →
  get_current_weather env url appid lat lon query_dict w
  = (Raise e, fetched w (request_events env lat lon query_dict)).
Proof.
  intros Hget. unfold get_current_weather, get. run. rewrite Hget.
  unfold fetched, request_events, query; simpl. by rewrite <- app_assoc.
Qed.

Lemma get_current_weather_not_json w resp :
  requests_get env (http_calls w) = Ok resp →
  json_loads env (text resp) = None →
  get_current_weather env url appid lat lon query_dict w
  = (Raise JSONDecodeError,
     fetched w (request_events env lat lon query_dict)).
Proof.
  intros Hget Hjson. unfold get_current_weather, get, loads. run.
  rewrite Hget, Hjson.
  unfold fetched, request_events, query; simpl. by rewrite <- app_assoc.
Qed.

Lemma get_current_weather_200 w resp v :
  requests_get env (http_calls w) = Ok resp →
  json_loads env (text resp) = Some v →
  status_code resp = 200 →
  get_current_weather env url appid lat lon query_dict w
  = (Return v,
     fetched w (request_events env lat lon query_dict
                ++ [EvLog DEBUG MsgApiSuccess])).
Proof.
  intros Hget Hjson Hstatus. unfold get_current_weather, get, loads. run.
  rewrite Hget, Hjson, Hstatus. run.
  unfold fetched, request_events, query; simpl. by rewrite <- !app_assoc.
Qed.

Lemma get_current_weather_error w resp v :
  requests_get env (http_calls w) = Ok resp →
  json_loads env (text resp) = Some v →
  status_code resp ≠ 200 →
  get_current_weather env url appid lat lon query_dict w
  = match getitem v "message" with
    | Return errmsg =>
        (Return (VDict ∅),
         fetched w (request_events env lat lon query_dict
                    ++ [EvLog ERROR (MsgApiError errmsg (status_code resp))]))
    | Raise e =>
        (Raise e, fetched w (request_events env lat lon query_dict))
    end.
Proof.
  intros Hget Hjson Hstatus. unfold get_current_weather, get, loads. run.
  rewrite Hget, Hjson.
  destruct (Z.eqb_spec (status_code resp) 200) as [?|_]; [done|].
  destruct (getitem v "message") as [errmsg|e]; run;
    unfold fetched, request_events, query; simpl; by rewrite <- !app_assoc.
Qed.

End WeatherFetcher.

(** C3 (as amended): on a response with a status other than 200 whose body
    decodes to a JSON object, [get_current_weather] logs the object's
    [message] and returns the empty dict when the object has that key, and
    raises [KeyError] when it has not. *)
Theorem get_current_weather_non_200 env url appid lat lon query_dict w resp d :
  requests_get env (http_calls w) = Ok resp →
  status_code resp ≠ 200 →
  json_loads env (text resp) = Some (VDict d) →
  get_current_weather env url appid lat lon query_dict w
  = match d !! "message" with
    | Some errmsg =>
        (Return (VDict ∅),
         fetched w (request_events env lat lon query_dict
                    ++ [EvLog ERROR (MsgApiError errmsg (status_code resp))]))
    | None =>
        (Raise KeyError, fetched w (request_events env lat lon query_dict))
    end.
Proof.
  intros Hget Hstatus Hjson.
  rewrite get_current_weather_error with (resp := resp) (v := VDict d)
    by done.
  simpl. by destruct (d !! "message").
Qed.

Lemma get_current_weather_non_200_witness :
  get_current_weather (sample_env (http_always 404 body_not_found) store_up)
    BASEURL "owm-key" 2.187184 117.6396 ∅ initial_world
  = (Return (VDict ∅),
     {| http_calls := 1; insert_calls := 0; clock_reads := 0;
        trace :=
          [ EvLog DEBUG (MsgGettingWeather 2.187184 117.6396);
            EvGet BASEURL
              {[ "appid" := VStr "owm-key"; "lat" := VFloat 2.187184;
                 "lon" := VFloat 117.6396 ]} None;
            EvLog ERROR (MsgApiError (VStr "city not found") 404) ] |}).
Proof.
  rewrite (get_current_weather_non_200
             (sample_env (http_always 404 body_not_found) store_up)
             BASEURL "owm-key" 2.187184 117.6396 ∅ initial_world
             {| status_code := 404; text := body_not_found |}
             {["message" := VStr "city not found"]});
    [ vm_compute; reflexivity | reflexivity | simpl; lia
    | vm_compute; reflexivity ].
Defined.

(** C3 (counterexample): a 404 whose body is the JSON object [{}]: the
    function raises [KeyError] instead of returning the empty dict. *)
Lemma get_current_weather_404_without_message :
  (get_current_weather (sample_env (http_always 404 body_empty_object) store_up)
     BASEURL "owm-key" 2.187184 117.6396 ∅ initial_world).1
  = Raise KeyError.
Proof. vm_compute. reflexivity. Qed.

(** The query holds the three required parameters unless [query_dict]
    overrides them, and everything else that [query_dict] holds. *)
Lemma query_lookup env lat lon query_dict key :
  query env lat lon query_dict !! key
  = match query_dict !! key with
    | Some v => Some v
    | None =>
        if decide (key = "lon") then Some (VFloat lon)
        else if decide (key = "lat") then Some (VFloat lat)
        else if decide (key = "appid") then Some (VStr (APIKEY env))
        else None
    end.
Proof.
  unfold query. rewrite lookup_union.
  destruct (query_dict !! key) as [v|] eqn:Hq.
  - by destruct (<["lon":=_]> _ !! key).
  - rewrite (left_id None _).
    rewrite !lookup_insert.
    repeat case_decide; subst; try done.
Qed.

(** Every call sends exactly one request: to [BASEURL], with the query built
    from the module's [APIKEY]; the arguments [url] and [appid] are not
    read. *)
Lemma get_current_weather_request env url appid lat lon query_dict w :
  ∃ evs,
    trace (get_current_weather env url appid lat lon query_dict w).2
    = trace w ++ evs
    ∧ requests_of evs = [(BASEURL, query env lat lon query_dict, None)].
Proof.
  destruct (requests_get env (http_calls w)) as [resp|e] eqn:Hget.
  - destruct (json_loads env (text resp)) as [v|] eqn:Hjson.
    + destruct (decide (status_code resp = 200)) as [Hs|Hs].
      * rewrite get_current_weather_200 with (resp := resp) (v := v) by done.
        by eexists.
      * rewrite get_current_weather_error with (resp := resp) (v := v)
          by done.
        destruct (getitem v "message"); by eexists.
    + rewrite get_current_weather_not_json with (resp := resp) by done.
      by eexists.
  - rewrite get_current_weather_no_response with (e := e) by done.
    by eexists.
Qed.

(** C7 (does not hold of the code; this is what the code does instead):
    called with an endpoint and a key of the caller's,
    [get_current_weather] still sends its request to the module's [BASEURL]
    with the module's [APIKEY] as [appid]. *)
Theorem get_current_weather_ignores_url_and_appid :
  let env := sample_env (http_always 200 body_temp) store_up in
  let url := "http://localhost:8080/weather" in
  let appid := "another-key" in
  requests_of
    (trace (get_current_weather env url appid 2.187184 117.6396 ∅
              initial_world).2)
  = [ (BASEURL,
       {[ "appid" := VStr "owm-key"; "lat" := VFloat 2.187184;
          "lon" := VFloat 117.6396 ]},
       None) ]
  ∧ BASEURL ≠ url
  ∧ VStr (APIKEY env) ≠ VStr appid.
Proof.
  intros env url appid. split; [vm_compute; reflexivity|].
  split; [discriminate|]. vm_compute. discriminate.
Qed.

(** ** The liveness reporter *)

(** C9 (as amended): [healthcheck] sends one GET with a timeout of ten seconds.
    After a response it returns normally; after an exception of a class
    that derives from [requests.RequestException] it logs the failure and
    returns normally; an exception of any other class is not caught: it
    leaves [healthcheck] and reaches the caller, with nothing logged. *)
Theorem healthcheck_catches_request_exceptions env hcurl w :
  healthcheck env hcurl w
  = match requests_get env (http_calls w) with
    | Ok _ => (Return tt, fetched w [EvGet hcurl ∅ (Some 10)])
    | Err e =>
        if issubclass e RequestException then
          (Return tt,
           fetched w [EvGet hcurl ∅ (Some 10); EvLog ERROR MsgHealthFailure])
        else (Raise e, fetched w [EvGet hcurl ∅ (Some 10)])
    end.
Proof.
  unfold healthcheck, try_except, get. run.
  destruct (requests_get env (http_calls w)) as [resp|e]; [done|].
  destruct (issubclass e RequestException); [|done].
  run. unfold fetched; simpl. by rewrite <- app_assoc.
Qed.

(** C9 (counterexample): a request that raises a ValueError, as
    [requests.get] does for a URL that urllib3 cannot parse (its
    LocationParseError is a ValueError and no RequestException): the
    exception is not caught, nothing is logged, and [healthcheck] raises it
    to its caller. *)
Lemma healthcheck_raises_ValueError :
  issubclass ValueError RequestException = false
  ∧ healthcheck (sample_env (λ _, Err ValueError) store_up)
      "https://hc.example/ping" initial_world
    = (Raise ValueError,
       {| http_calls := 1; insert_calls := 0; clock_reads := 0;
          trace := [EvGet "https://hc.example/ping" ∅ (Some 10)] |}).
Proof. split; reflexivity. Qed.

(** ** The ingest loop *)

Lemma issubclass_Exception e : issubclass e Exception = true.
Proof. by destruct e. Qed.

Lemma grid_of_script :
  grid_coordinates PrimFloat.ltb np_linspace COORDINATES 8
  = Return weather_area.
Proof. vm_compute. reflexivity. Qed.

Section IngestLoop.

Variable env : Env.

Lemma ingest_point_unfold processed_data lat lon w :
  ingest_point env processed_data (lat, lon) w
  = match get_current_weather env BASEURL (APIKEY env) lat lon ∅ w with
    | (Return data, w1) =>
        if eq_empty_dict data then
          (Return processed_data, emit (EvLog ERROR MsgSkipEmpty) w1)
        else persist_reading env processed_data data w1
    | (Raise e, w1) => (Raise e, w1)
    end.
Proof.
  unfold ingest_point. unfold mbind at 1, M_bind at 1.
  destruct (get_current_weather _ _ _ _ _ _ _) as [[data|e] w1]; [|done].
  by destruct (eq_empty_dict data).
Qed.

Lemma ingest_grid_app done rest : ∀ processed_data w,
  ingest_grid env (done ++ rest) processed_data w
  = match ingest_grid env done processed_data w with
    | (Return n, w1) => ingest_grid env rest n w1
    | (Raise e, w1) => (Raise e, w1)
    end.
Proof.
  induction done as [|point done IH]; intros processed_data w; [done|].
  simpl. unfold mbind at 1 2, M_bind at 1 2.
  destruct (ingest_point env processed_data point w) as [[n|e] w1]; [|done].
  apply IH.
Qed.

Lemma ingest_forever_add c1 c2 area : ∀ processed_data w,
  ingest_forever env (c1 + c2) area processed_data w
  = match ingest_forever env c1 area processed_data w with
    | (Return n, w1) => ingest_forever env c2 area n w1
    | (Raise e, w1) => (Raise e, w1)
    end.
Proof.
  induction c1 as [|c1 IH]; intros processed_data w; [done|].
  simpl. unfold mbind at 1 2, M_bind at 1 2.
  destruct (ingest_grid env area processed_data w) as [[n|e] w1]; [|done].
  apply IH.
Qed.

(** [main] computes the grid, pings the store, logging a failure of the
    ping without stopping, and enters the loop. *)
Lemma main_unfold cycles w :
  main env cycles w = ingest_forever env cycles weather_area 0 (started env w).
Proof.
  unfold main, get_grid_coordinates. rewrite grid_of_script.
  unfold try_except, command_ping. run.
  unfold started, startup_events.
  destruct (admin_ping env) as [[]|e]; simpl.
  - f_equal. f_equal. by rewrite <- !app_assoc.
  - rewrite issubclass_Exception. run. f_equal. f_equal.
    by rewrite <- !app_assoc.
Qed.

End IngestLoop.

(** C10: [get_current_weather] decodes the body before it looks at the
    status, so a response whose body is no JSON document, whatever its
    status, makes it raise [JSONDecodeError]; nothing in the loop catches
    it: the walk over the grid that meets such a response raises it, and so
    does [main], at whatever cycle and grid point the response arrives. *)
Theorem non_json_body_crashes_the_loop env resp :
  json_loads env (text resp) = None →
  (∀ url appid lat lon query_dict w,
     requests_get env (http_calls w) = Ok resp →
     (get_current_weather env url appid lat lon query_dict w).1
     = Raise JSONDecodeError)
  ∧ (∀ done point rest n w n1 w1,
       ingest_grid env done n w = (Return n1, w1) →
       requests_get env (http_calls w1) = Ok resp →
       (ingest_grid env (done ++ point :: rest) n w).1
       = Raise JSONDecodeError)
  ∧ (∀ c1 c2 done point rest w n1 w1 n2 w2,
       weather_area = done ++ point :: rest →
       main env c1 w = (Return n1, w1) →
       ingest_grid env done n1 w1 = (Return n2, w2) →
       requests_get env (http_calls w2) = Ok resp →
       (main env (c1 + S c2) w).1 = Raise JSONDecodeError).
Proof.
  intros Hjson.
  assert (Hgrid : ∀ done point rest n w n1 w1,
             ingest_grid env done n w = (Return n1, w1) →
             requests_get env (http_calls w1) = Ok resp →
             (ingest_grid env (done ++ point :: rest) n w).1
             = Raise JSONDecodeError).
  { intros done [lat lon] rest n w n1 w1 Hdone Hget.
    rewrite ingest_grid_app, Hdone. cbn [ingest_grid].
    unfold mbind at 1, M_bind at 1. rewrite ingest_point_unfold.
    by rewrite get_current_weather_not_json with (resp := resp). }
  split; [|split; [exact Hgrid|]].
  - intros url appid lat lon query_dict w Hget.
    by rewrite get_current_weather_not_json with (resp := resp).
  - intros c1 c2 done point rest w n1 w1 n2 w2 Harea Hmain Hdone Hget.
    rewrite main_unfold in *. rewrite ingest_forever_add, Hmain.
    cbn [ingest_forever]. unfold mbind at 1, M_bind at 1.
    specialize (Hgrid done point rest n1 w1 n2 w2 Hdone Hget).
    rewrite Harea.
    destruct (ingest_grid env (done ++ point :: rest) n1 w1)
      as [[n|e] w3]; simpl in Hgrid; [discriminate|].
    by injection Hgrid as ->.
Qed.

Lemma non_json_body_crashes_the_loop_witness :
  (main (sample_env (http_always 200 body_html) store_up) 1 initial_world).1
  = Raise JSONDecodeError.
Proof.
  pose (env := sample_env (http_always 200 body_html) store_up).
  destruct (non_json_body_crashes_the_loop env
              {| status_code := 200; text := body_html |})
    as (_ & _ & Hmain); [vm_compute; reflexivity|].
  apply (Hmain 0%nat 0%nat [] (2.066438, 117.560116)%float
           (tail weather_area) initial_world 0 (started env initial_world)
           0 (started env initial_world)); reflexivity.
Defined.

(** C2 (does not hold of the code; this is what the code does instead): a
    grid point whose fetch ends in the empty dict leaves the loop body
    through [continue]: the events of the point hold no sleep, the counter
    is unchanged, and the walk goes on to the next point from there. *)
Theorem skipped_point_is_not_delayed env processed_data lat lon rest w resp
    d errmsg :
  requests_get env (http_calls w) = Ok resp →
  status_code resp ≠ 200 →
  json_loads env (text resp) = Some (VDict d) →
  d !! "message" = Some errmsg →
  let evs := skipped_point_events env lat lon errmsg (status_code resp) in
  ingest_point env processed_data (lat, lon) w
  = (Return processed_data, fetched w evs)
  ∧ sleeps_of evs = []
  ∧ ingest_grid env ((lat, lon) :: rest) processed_data w
    = ingest_grid env rest processed_data (fetched w evs).
Proof.
  intros Hget Hstatus Hjson Hmsg evs.
  assert (Hpoint : ingest_point env processed_data (lat, lon) w
                   = (Return processed_data, fetched w evs)).
  { rewrite ingest_point_unfold.
    rewrite get_current_weather_error with (resp := resp) (v := VDict d)
      by done.
    simpl. rewrite Hmsg. simpl.
    unfold emit, fetched, evs, skipped_point_events.
    simpl. by rewrite <- !app_assoc. }
  split; [exact Hpoint|]. split; [done|].
  cbn [ingest_grid]. unfold mbind at 1, M_bind at 1. by rewrite Hpoint.
Qed.

(** Two grid points, the first answered by a 404, the second by a reading
    that is stored: one sleep in all, after the second. *)
Lemma skipped_point_is_not_delayed_witness :
  let env := sample_env (http_in_turn [(404, body_not_found); (200, body_temp)])
               store_up in
  let point := (2.066438, 117.560116)%float in
  let area := [point; (2.066438, 117.571471)%float] in
  (ingest_point env 0 point initial_world).1 = Return 0
  ∧ sleeps_of (trace (ingest_point env 0 point initial_world).2) = []
  ∧ (ingest_grid env area 0 initial_world).1 = Return 1
  ∧ sleeps_of (trace (ingest_grid env area 0 initial_world).2)
    = [PyFloat 1.5]
  ∧ length (requests_of (trace (ingest_grid env area 0 initial_world).2))
    = 2%nat.
Proof.
  intros env point area.
  destruct (skipped_point_is_not_delayed env 0 2.066438 117.560116
              [(2.066438, 117.571471)%float] initial_world
              {| status_code := 404; text := body_not_found |}
              {["message" := VStr "city not found"]}
              (VStr "city not found"))
    as (Hpoint & Hsleeps & Hgrid);
    [ vm_compute; reflexivity | simpl; lia | vm_compute; reflexivity
    | vm_compute; reflexivity | ].
  unfold point. rewrite Hpoint.
  split; [reflexivity|]. split; [exact Hsleeps|].
  split; [vm_compute; reflexivity|].
  split; vm_compute; reflexivity.
Defined.

(** The other path through the loop body: a reading that is stored (with
    the liveness ping, when one is due, ending in a response or an exception
    of [requests]) is counted, and the body ends with the sleep of 1.5
    seconds, its only sleep after the insert. *)
Lemma persisted_point_is_delayed env processed_data d w r w1 :
  insert_data_to_mongodb env "weather-tracking-system" "open-weather-raw"
    (VDict d) 5 (emit (EvLog DEBUG (MsgApiFinished (Z.of_nat (size d)))) w)
  = (Return r, w1) →
  ((processed_data + 1) `mod` 25 = 0 →
   response_or_request_exception (requests_get env (http_calls w1))) →
  ∃ w' evs,
    persist_reading env processed_data (VDict d) w
    = (Return (processed_data + 1), w')
    ∧ trace w' = trace w1 ++ evs ++ [EvSleep (PyFloat 1.5)]
    ∧ sleeps_of evs = [].
Proof.
  intros Hins Hhc. unfold persist_reading.
  unfold mbind, M_bind, lift, log. cbn [py_len]. rewrite Hins.
  destruct (Z.eqb_spec ((processed_data + 1) `mod` 25) 0) as [Hmod|Hmod].
  - specialize (Hhc Hmod). unfold healthcheck, try_except, get.
    unfold response_or_request_exception in Hhc.
    unfold mbind, M_bind, mret, M_ret, sleep, emit.
    cbn [http_calls insert_calls clock_reads trace].
    destruct (requests_get env (http_calls w1)) as [resp|e].
    + eexists _, [EvLog INFO (MsgProcessed (processed_data + 1));
                  EvGet (HEALTHCHECK_URL env) ∅ (Some 10)].
      split; [reflexivity|]. cbn [trace].
      split; [by rewrite <- !app_assoc | done].
    + rewrite Hhc. unfold log_exception, log, emit.
      eexists _, [EvLog INFO (MsgProcessed (processed_data + 1));
                  EvGet (HEALTHCHECK_URL env) ∅ (Some 10);
                  EvLog ERROR MsgHealthFailure].
      split; [reflexivity|]. cbn [trace].
      split; [by rewrite <- !app_assoc | done].
  - unfold mret, M_ret, sleep, emit. eexists _, [].
    split; [reflexivity|]. done.
Qed.

Lemma persisted_point_is_delayed_witness :
  let env := sample_env (http_always 200 body_temp) store_up in
  ∃ w' evs,
    persist_reading env 24 (VDict reading_temp) initial_world
    = (Return 25, w')
    ∧ trace w'
      = [ EvLog DEBUG (MsgApiFinished 1); EvNow;
          EvInsert "weather-tracking-system" "open-weather-raw"
            (VDict (stamp reading_temp 1700000000000000));
          EvPrint (VInt 0) ]
        ++ evs ++ [EvSleep (PyFloat 1.5)]
    ∧ sleeps_of evs = [].
Proof.
  intros env.
  apply (persisted_point_is_delayed env 24 reading_temp initial_world
           (Some {| inserted_id := VInt 0 |})
           {| http_calls := 0; insert_calls := 1; clock_reads := 1;
              trace :=
                [ EvLog DEBUG (MsgApiFinished 1); EvNow;
                  EvInsert "weather-tracking-system" "open-weather-raw"
                    (VDict (stamp reading_temp 1700000000000000));
                  EvPrint (VInt 0) ] |}).
  - vm_compute. reflexivity.
  - intros _. exact I.
Defined.

(** C4 (as amended): on a response with status 200, [get_current_weather]
    returns the decoded body unchanged; the body equals the empty dict that
    marks a failed fetch exactly when it is the empty object, and then, and
    only then, the loop skips the point; any other body goes on to be
    persisted. *)
Theorem fetched_reading_skipped_iff_empty env url appid processed_data lat lon
    query_dict w resp v :
  requests_get env (http_calls w) = Ok resp →
  status_code resp = 200 →
  json_loads env (text resp) = Some v →
  (get_current_weather env url appid lat lon query_dict w).1 = Return v
  ∧ (eq_empty_dict v = true ↔ v = VDict ∅)
  ∧ ingest_point env processed_data (lat, lon) w
    = let w1 := fetched w (request_events env lat lon ∅
                           ++ [EvLog DEBUG MsgApiSuccess]) in
      if eq_empty_dict v then
        (Return processed_data, emit (EvLog ERROR MsgSkipEmpty) w1)
      else persist_reading env processed_data v w1.
Proof.
  intros Hget Hstatus Hjson. split; [|split].
  - by rewrite get_current_weather_200 with (resp := resp) (v := v).
  - destruct v; simpl; try (split; [discriminate | discriminate]).
    rewrite bool_decide_eq_true. split; [by intros -> | by intros [= ->]].
  - rewrite ingest_point_unfold.
    by rewrite get_current_weather_200 with (resp := resp) (v := v).
Qed.

Lemma fetched_reading_skipped_iff_empty_witness :
  let env := sample_env (http_always 200 body_temp) store_up in
  let point := (2.066438, 117.560116)%float in
  (ingest_point env 0 point initial_world).1 = Return 1
  ∧ inserted_documents (trace (ingest_point env 0 point initial_world).2)
    = [VDict (stamp reading_temp 1700000000000000)].
Proof.
  intros env point.
  destruct (fetched_reading_skipped_iff_empty env BASEURL "owm-key" 0
              2.066438 117.560116 ∅ initial_world
              {| status_code := 200; text := body_temp |}
              (VDict reading_temp))
    as (_ & _ & Hpoint);
    [ vm_compute; reflexivity | reflexivity | vm_compute; reflexivity | ].
  unfold point. rewrite Hpoint. split; vm_compute; reflexivity.
Defined.

(** C4 (counterexample): a 200 whose body is the JSON object [{}]: the value
    returned is the empty dict, the same value as after a failed fetch, and
    the loop skips the point without an insert. *)
Lemma empty_reading_is_skipped :
  let env := sample_env (http_always 200 body_empty_object) store_up in
  (get_current_weather env BASEURL "owm-key" 2.066438 117.560116 ∅
     initial_world).1
  = Return (VDict ∅)
  ∧ ingest_point env 0 (2.066438, 117.560116)%float initial_world
    = (Return 0,
       {| http_calls := 1; insert_calls := 0; clock_reads := 0;
          trace :=
            [ EvLog DEBUG (MsgGettingWeather 2.066438 117.560116);
              EvGet BASEURL
                {[ "appid" := VStr "owm-key"; "lat" := VFloat 2.066438;
                   "lon" := VFloat 117.560116 ]} None;
              EvLog DEBUG MsgApiSuccess;
              EvLog ERROR MsgSkipEmpty ] |}).
Proof. split; vm_compute; reflexivity. Qed.

(** ** The grid generator *)

Lemma length_cross {F : Type} (lat_points lon_points : list F) :
  length (cross lat_points lon_points)
  = (length lat_points * length lon_points)%nat.
Proof.
  unfold cross. induction lat_points as [|lat rest IH]; [done|].
  simpl. by rewrite length_app, length_map, IH.
Qed.

Lemma in_cross {F : Type} (lat_points lon_points : list F) lat lon :
  In (lat, lon) (cross lat_points lon_points)
  ↔ In lat lat_points ∧ In lon lon_points.
Proof.
  unfold cross. rewrite in_flat_map. split.
  - intros (lat' & Hlat & Hin).
    by apply in_map_iff in Hin as (lon' & [= <- <-] & Hlon).
  - intros [Hlat Hlon]. exists lat. split; [done|].
    apply in_map_iff. by exists lon.
Qed.

Lemma in_fst_cross {F : Type} (lat_points lon_points : list F) lat :
  lon_points ≠ [] →
  In lat (map fst (cross lat_points lon_points)) ↔ In lat lat_points.
Proof.
  intros Hne. rewrite in_map_iff. split.
  - intros ([lat' lon] & <- & Hin). by apply in_cross in Hin as [? _].
  - intros Hlat. destruct lon_points as [|lon ?]; [done|].
    exists (lat, lon). split; [done|]. apply in_cross. split; [done | by left].
Qed.

Lemma in_snd_cross {F : Type} (lat_points lon_points : list F) lon :
  lat_points ≠ [] →
  In lon (map snd (cross lat_points lon_points)) ↔ In lon lon_points.
Proof.
  intros Hne. rewrite in_map_iff. split.
  - intros ([lat lon'] & <- & Hin). by apply in_cross in Hin as [_ ?].
  - intros Hlon. destruct lat_points as [|lat ?]; [done|].
    exists (lat, lon). split; [done|]. apply in_cross. split; [by left | done].
Qed.

(** Row [i] of the grid holds latitude [i]; place [j] in it holds longitude
    [j]. *)
Lemma lookup_cross {F : Type} (lat_points lon_points : list F) :
  ∀ (i j : nat) lat lon,
    lat_points !! i = Some lat → lon_points !! j = Some lon →
    cross lat_points lon_points !! (i * length lon_points + j)%nat
    = Some (lat, lon).
Proof.
  unfold cross.
  induction lat_points as [|lat0 rest IH]; intros i j lat lon Hlat Hlon;
    [done|].
  pose proof (lookup_lt_Some _ _ _ Hlon) as Hj.
  cbn [flat_map]. destruct i as [|i]; simpl in Hlat.
  - injection Hlat as ->. rewrite Nat.mul_0_l, Nat.add_0_l.
    rewrite lookup_app_l by (rewrite length_map; lia).
    change (map ?f ?l) with (f <$> l).
    by rewrite list_lookup_fmap, Hlon.
  - rewrite lookup_app_r by (rewrite length_map; lia).
    rewrite length_map.
    replace (S i * length lon_points + j - length lon_points)%nat
      with (i * length lon_points + j)%nat by lia.
    by apply IH.
Qed.

(** *** The order of binary64 numbers *)

Lemma SFcompare_rank f g :
  f ≠ S754_nan → g ≠ S754_nan →
  ∃ c, SFcompare f g = Some c
       ∧ (c = Lt ↔ rank_lt (rank f) (rank g))
       ∧ (c = Gt ↔ rank_lt (rank g) (rank f))
       ∧ (c = Eq ↔ rank f = rank g).
Proof.
  intros Hf Hg.
  destruct f as [sf|sf| |sf mf ef], g as [sg|sg| |sg mg eg]; try done;
    try destruct sf; try destruct sg; simpl;
    try (eexists; split; [reflexivity|]; unfold rank_lt;
         repeat split; intros; try done; try lia; try congruence; fail).
  all: change (PosDef.Pos.compare_cont Eq mf mg) with (Pos.compare mf mg).
  all: destruct (Z.compare_spec ef eg) as [He|He|He];
    [destruct (Pos.compare_spec mf mg) as [Hm|Hm|Hm]| |];
    simpl; (eexists; split; [reflexivity|]);
    (split; [|split]); (split; intros H);
    try done; try lia; try (injection H; lia); try (subst; reflexivity).
Qed.

Lemma rank_lt_irrefl a : ¬ rank_lt a a.
Proof. destruct a as [[a1 a2] a3]. unfold rank_lt. lia. Qed.

Lemma rank_lt_trans a b c : rank_lt a b → rank_lt b c → rank_lt a c.
Proof.
  destruct a as [[a1 a2] a3], b as [[b1 b2] b3], c as [[c1 c2] c3].
  unfold rank_lt. lia.
Qed.

Lemma rank_le_trans a b c : ¬ rank_lt b a → ¬ rank_lt c b → ¬ rank_lt c a.
Proof.
  destruct a as [[a1 a2] a3], b as [[b1 b2] b3], c as [[c1 c2] c3].
  unfold rank_lt. lia.
Qed.

Lemma rank_le_antisym a b : ¬ rank_lt a b → ¬ rank_lt b a → a = b.
Proof.
  destruct a as [[a1 a2] a3], b as [[b1 b2] b3].
  unfold rank_lt. intros H1 H2.
  assert (a1 = b1 ∧ a2 = b2 ∧ a3 = b3) as (-> & -> & ->) by lia. done.
Qed.

Lemma rank_lt_dec a b : rank_lt a b ∨ ¬ rank_lt a b.
Proof. destruct a as [[a1 a2] a3], b as [[b1 b2] b3]. unfold rank_lt. lia. Qed.

(** [x == x] tells the numbers from NaN. *)
Lemma eqb_true_number x y :
  (x =? y)%float = true → is_number x ∧ is_number y.
Proof.
  rewrite FloatAxioms.eqb_spec. unfold is_number, SFeqb.
  destruct (Prim2SF x) as [| | |], (Prim2SF y) as [| | |]; simpl;
    intros H; try discriminate H; by split.
Qed.

Lemma leb_true_number x y :
  (x <=? y)%float = true → is_number x ∧ is_number y.
Proof.
  rewrite FloatAxioms.leb_spec. unfold is_number, SFleb.
  destruct (Prim2SF x) as [| | |], (Prim2SF y) as [| | |]; simpl;
    intros H; try discriminate H; by split.
Qed.

Lemma ltb_rank x y :
  is_number x → is_number y →
  ((x <? y)%float = true ↔ rank_lt (frank x) (frank y)).
Proof.
  intros Hx Hy. rewrite FloatAxioms.ltb_spec. unfold SFltb, frank.
  destruct (SFcompare_rank _ _ Hx Hy) as (c & -> & Hlt & _ & _).
  rewrite <- Hlt. by destruct c.
Qed.

Lemma ltb_false_rank x y :
  is_number x → is_number y →
  ((x <? y)%float = false ↔ ¬ rank_lt (frank x) (frank y)).
Proof.
  intros Hx Hy. rewrite <- (ltb_rank x y Hx Hy).
  by destruct (x <? y)%float.
Qed.

Lemma leb_rank x y :
  is_number x → is_number y →
  ((x <=? y)%float = true ↔ ¬ rank_lt (frank y) (frank x)).
Proof.
  intros Hx Hy. rewrite FloatAxioms.leb_spec. unfold SFleb, frank.
  destruct (SFcompare_rank _ _ Hx Hy) as (c & -> & Hlt & Hgt & Heq).
  destruct (SFcompare_rank _ _ Hy Hx) as (c' & _ & Hlt' & Hgt' & Heq').
  rewrite <- Hgt. by destruct c.
Qed.

Lemma eqb_rank x y :
  is_number x → is_number y →
  ((x =? y)%float = true ↔ frank x = frank y).
Proof.
  intros Hx Hy. rewrite FloatAxioms.eqb_spec. unfold SFeqb, frank.
  destruct (SFcompare_rank _ _ Hx Hy) as (c & -> & _ & _ & Heq).
  rewrite <- Heq. by destruct c.
Qed.

Lemma float_le_refl x : is_number x → float_le x x.
Proof. intros Hx. apply leb_rank; [done..|]. apply rank_lt_irrefl. Qed.

Lemma float_le_trans x y z : float_le x y → float_le y z → float_le x z.
Proof.
  unfold float_le. intros Hxy Hyz.
  destruct (leb_true_number _ _ Hxy) as [Hx Hy].
  destruct (leb_true_number _ _ Hyz) as [_ Hz].
  apply leb_rank in Hxy; [|done..]. apply leb_rank in Hyz; [|done..].
  apply leb_rank; [done..|]. by eapply rank_le_trans.
Qed.

Lemma float_le_eqb_l x x' y :
  (x =? x')%float = true → float_le x y → float_le x' y.
Proof.
  unfold float_le. intros Heq Hle.
  destruct (eqb_true_number _ _ Heq) as [Hx Hx'].
  destruct (leb_true_number _ _ Hle) as [_ Hy].
  apply eqb_rank in Heq; [|done..]. apply leb_rank in Hle; [|done..].
  apply leb_rank; [done..|]. by rewrite <- Heq.
Qed.

Lemma rank_inj f g :
  f ≠ S754_nan → g ≠ S754_nan → f ≠ S754_zero true → g ≠ S754_zero true →
  rank f = rank g → f = g.
Proof.
  intros Hf Hg Hf0 Hg0.
  destruct f as [[|]|[|]| |[|] mf ef], g as [[|]|[|]| |[|] mg eg];
    simpl; intros H; try done; try discriminate H.
  - injection H as He Hm.
    assert (ef = eg) as -> by lia. assert (mf = mg) as -> by lia. done.
  - injection H as He Hm.
    assert (ef = eg) as -> by lia. assert (mf = mg) as -> by lia. done.
Qed.

Lemma ordinary_number x : ordinary x = true → is_number x.
Proof.
  unfold ordinary, is_number. by destruct (Prim2SF x) as [[|]| | |].
Qed.

Lemma ordinary_frank_inj x y :
  ordinary x = true → ordinary y = true → frank x = frank y → x = y.
Proof.
  unfold ordinary, frank. intros Hx Hy Hrank. apply Prim2SF_inj.
  apply rank_inj; try done.
  - by destruct (Prim2SF x) as [[|]| | |].
  - by destruct (Prim2SF y) as [[|]| | |].
  - by destruct (Prim2SF x) as [[|]| | |].
  - by destruct (Prim2SF y) as [[|]| | |].
Qed.

(** *** Least and greatest of a list of floats *)

(** A first element that nothing is below is the minimum. *)
Lemma fold_min_first rest x :
  (∀ y, In y rest → (y <? x)%float = false) →
  fold_left (λ m y, if (y <? m)%float then y else m) rest x = x.
Proof.
  induction rest as [|z rest IH]; simpl; intros H; [done|].
  rewrite (H z) by (by left). apply IH. intros y Hy. apply H. by right.
Qed.

(** Among numbers, [max] returns an element that nothing is above. *)
Lemma fold_max_greatest rest x :
  is_number x → Forall is_number rest →
  let m := fold_left (λ m y, if (m <? y)%float then y else m) rest x in
  In m (x :: rest) ∧ is_number m
  ∧ ∀ y, In y (x :: rest) → ¬ rank_lt (frank m) (frank y).
Proof.
  revert x. induction rest as [|z rest IH]; intros x Hx Hall; simpl.
  - split; [by left|]. split; [done|].
    intros y [<-|[]]. apply rank_lt_irrefl.
  - apply Forall_cons in Hall as [Hz Hall].
    destruct (x <? z)%float eqn:Hlt.
    + destruct (IH z Hz Hall) as (Hin & Hnum & Hmax).
      split; [by right|]. split; [done|].
      intros y [<-|Hy]; [|by apply Hmax].
      apply ltb_rank in Hlt; [|done..].
      intros Hc. apply (Hmax z); [by left|]. by eapply rank_lt_trans.
    + destruct (IH x Hx Hall) as (Hin & Hnum & Hmax).
      split; [|split; [done|]].
      * destruct Hin as [Hin|Hin]; [by left | by right; right].
      * apply ltb_false_rank in Hlt; [|done..].
        intros y [<-|[<-|Hy]].
        -- apply Hmax. by left.
        -- apply (rank_le_trans _ (frank x)); [done|]. apply Hmax. by left.
        -- apply Hmax. by right.
Qed.

(** Among numbers, [min] returns an element that nothing is below. *)
Lemma fold_min_least rest x :
  is_number x → Forall is_number rest →
  let m := fold_left (λ m y, if (y <? m)%float then y else m) rest x in
  In m (x :: rest) ∧ is_number m
  ∧ ∀ y, In y (x :: rest) → ¬ rank_lt (frank y) (frank m).
Proof.
  revert x. induction rest as [|z rest IH]; intros x Hx Hall; simpl.
  - split; [by left|]. split; [done|].
    intros y [<-|[]]. apply rank_lt_irrefl.
  - apply Forall_cons in Hall as [Hz Hall].
    destruct (z <? x)%float eqn:Hlt.
    + destruct (IH z Hz Hall) as (Hin & Hnum & Hmin).
      split; [by right|]. split; [done|].
      intros y [<-|Hy]; [|by apply Hmin].
      apply ltb_rank in Hlt; [|done..].
      intros Hc. apply (Hmin z); [by left|]. by eapply rank_lt_trans.
    + destruct (IH x Hx Hall) as (Hin & Hnum & Hmin).
      split; [|split; [done|]].
      * destruct Hin as [Hin|Hin]; [by left | by right; right].
      * apply ltb_false_rank in Hlt; [|done..].
        intros y [<-|[<-|Hy]].
        -- apply Hmin. by left.
        -- apply (rank_le_trans _ (frank x)); [|done]. apply Hmin. by left.
        -- apply Hmin. by right.
Qed.

(** *** Nondecreasing samples *)

Lemma float_nondecreasing_sorted l :
  float_nondecreasing l = true ↔ Sorted float_le l.
Proof.
  induction l as [|x l IH]; [done|].
  destruct l as [|y rest].
  - split; [|done]. intros _. by repeat constructor.
  - change (float_nondecreasing (x :: y :: rest))
      with ((x <=? y)%float && float_nondecreasing (y :: rest)).
    rewrite andb_true_iff, IH. split.
    + intros [Hxy Hrest]. constructor; [done|]. by constructor.
    + intros Hsorted. inversion Hsorted as [|? ? Hrest Hhd]; subst.
      by inversion Hhd; subst.
Qed.

Lemma float_nondecreasing_strongly l :
  float_nondecreasing l = true → StronglySorted float_le l.
Proof.
  intros H. apply Sorted_StronglySorted.
  - intros x y z. apply float_le_trans.
  - by apply float_nondecreasing_sorted.
Qed.

(** A regular axis: a first sample equal to [lo], below every sample, and
    every sample below the last one. *)
Lemma axis_regular_bounds lo points :
  axis_regular lo points = true →
  ∃ first rest,
    points = first :: rest
    ∧ (first =? lo)%float = true
    ∧ Forall is_number points
    ∧ StronglySorted float_le points
    ∧ (∀ y, In y points → float_le first y)
    ∧ (∀ hi y, last points = Some hi → In y points → float_le y hi).
Proof.
  unfold axis_regular. intros H. apply andb_prop in H as [Hstart Hsorted].
  destruct points as [|first rest]; [done|]. simpl in Hstart.
  exists first, rest. split; [done|]. split; [done|].
  destruct (eqb_true_number _ _ Hstart) as [Hfirst _].
  apply float_nondecreasing_strongly in Hsorted.
  assert (Hrest : Forall (float_le first) rest)
    by (by inversion Hsorted; subst).
  assert (Hnum : Forall is_number (first :: rest)).
  { constructor; [done|]. eapply Forall_impl; [exact Hrest|].
    intros y Hy. by destruct (leb_true_number _ _ Hy). }
  split; [done|]. split; [done|]. split.
  - intros y [<-|Hy]; [by apply float_le_refl|].
    rewrite Forall_forall in Hrest. apply Hrest. by apply list_elem_of_In.
  - clear Hstart Hfirst Hrest. revert Hsorted Hnum.
    generalize (first :: rest). clear first rest.
    intros l Hsorted. induction Hsorted as [|a l' Hsorted IH Hall];
      intros Hnum hi y Hlast Hy; [done|].
    apply Forall_cons in Hnum as [Ha Hnum].
    rewrite last_cons in Hlast.
    destruct (last l') as [hi'|] eqn:Hl'.
    + injection Hlast as ->.
      destruct Hy as [<-|Hy]; [|by apply (IH Hnum)].
      rewrite Forall_forall in Hall. apply Hall.
      by apply last_Some_elem_of.
    + injection Hlast as ->. apply last_None in Hl' as ->.
      destruct Hy as [<-|[]]. by apply float_le_refl.
Qed.

(** *** [numpy.linspace] on floats *)

(** With two samples or more, [np_linspace] returns [num] samples, and the
    last one is [stop] itself. *)
Lemma np_linspace_samples start stop num :
  2 ≤ num →
  ∃ points,
    np_linspace start stop num = Return points
    ∧ length points = Z.to_nat num
    ∧ last points = Some stop.
Proof.
  intros Hnum. unfold np_linspace.
  destruct (Z.ltb_spec num 0) as [?|_]; [lia|].
  destruct (Z.ltb_spec 1 num) as [_|?]; [|lia].
  destruct (Z.ltb_spec 0 (num - 1)) as [_|?]; [|lia].
  cbv zeta.
  set (y := map _ (if (_ =? 0)%float then _ else _)).
  assert (Hlen : length y = Z.to_nat num).
  { unfold y. rewrite length_map.
    destruct (_ =? 0)%float; by rewrite !length_map, length_seq. }
  exists (<[Z.to_nat (num - 1) := stop]> y).
  split; [done|]. split; [by rewrite length_insert|].
  rewrite last_lookup, length_insert, Hlen.
  replace (pred (Z.to_nat num)) with (Z.to_nat (num - 1)) by lia.
  apply list_lookup_insert_eq. lia.
Qed.

(** *** The rows of the grid *)

Lemma fst_cross_cons {F : Type} (lat : F) (lat_points lon_points : list F) :
  map fst (cross (lat :: lat_points) lon_points)
  = map (λ _, lat) lon_points ++ map fst (cross lat_points lon_points).
Proof. unfold cross. simpl. by rewrite map_app, map_map. Qed.

Lemma snd_cross_cons {F : Type} (lat : F) (lat_points lon_points : list F) :
  map snd (cross (lat :: lat_points) lon_points)
  = lon_points ++ map snd (cross lat_points lon_points).
Proof.
  unfold cross. simpl. rewrite map_app, map_map. simpl. by rewrite map_id.
Qed.

Lemma head_cross {F : Type} (lat_points lon_points : list F) lat lon :
  head lat_points = Some lat → head lon_points = Some lon →
  head (cross lat_points lon_points) = Some (lat, lon).
Proof.
  rewrite !head_lookup. intros Hlat Hlon.
  by rewrite <- (lookup_cross lat_points lon_points 0 0 lat lon).
Qed.

Lemma last_cross {F : Type} (lat_points lon_points : list F) lat lon :
  last lat_points = Some lat → last lon_points = Some lon →
  last (cross lat_points lon_points) = Some (lat, lon).
Proof.
  rewrite !last_lookup, length_cross. intros Hlat Hlon.
  pose proof (lookup_lt_Some _ _ _ Hlat).
  pose proof (lookup_lt_Some _ _ _ Hlon).
  replace (pred (length lat_points * length lon_points))
    with (pred (length lat_points) * length lon_points
          + pred (length lon_points))%nat by nia.
  by apply lookup_cross.
Qed.

(** The latitudes of the rows of a grid do not decrease when the latitude
    samples do not. *)
Lemma const_app_sorted {X : Type} (lat : float) (row : list X) rest :
  float_le lat lat → Sorted float_le rest →
  (∀ y, In y rest → float_le lat y) →
  Sorted float_le (map (λ _, lat) row ++ rest).
Proof.
  intros Hrefl Hrest Hle. induction row as [|x row IH]; [done|].
  simpl. constructor; [done|].
  destruct row as [|x' row]; simpl; [|by constructor].
  destruct rest as [|y rest]; constructor. apply Hle. by left.
Qed.

Lemma fst_cross_sorted (lat_points lon_points : list float) :
  Forall is_number lat_points → StronglySorted float_le lat_points →
  Sorted float_le (map fst (cross lat_points lon_points)).
Proof.
  intros Hnum Hsorted.
  induction Hsorted as [|lat rest Hsorted IH Hall]; [constructor|].
  apply Forall_cons in Hnum as [Hlat Hnum].
  rewrite fst_cross_cons. apply const_app_sorted.
  - by apply float_le_refl.
  - by apply IH.
  - intros y Hy. apply in_map_iff in Hy as ([lat' lon] & <- & Hin).
    apply in_cross in Hin as [Hin _].
    rewrite Forall_forall in Hall. apply Hall. by apply list_elem_of_In.
Qed.

(** *** Least and greatest of the produced coordinates *)

(** Over a regular axis, a list that starts with the first sample and holds
    the samples and nothing else has a [min] equal to the start of the axis
    and a [max] equal to its last sample. *)
Lemma produced_extremes lo hi points first xs :
  axis_regular lo points = true → last points = Some hi →
  head points = Some first →
  (∀ y, In y (first :: xs) ↔ In y points) →
  ∃ m g,
    py_min PrimFloat.ltb (first :: xs) = Return m
    ∧ (m =? lo)%float = true
    ∧ py_max PrimFloat.ltb (first :: xs) = Return g
    ∧ (g =? hi)%float = true.
Proof.
  intros Hregular Hlast Hhead Hsame.
  destruct (axis_regular_bounds lo points Hregular)
    as (first' & rest & -> & Hstart & Hnum & _ & Hlo & Hhi).
  injection Hhead as ->.
  assert (Hfirst : is_number first) by by apply Forall_cons in Hnum as [? _].
  assert (Hxs : Forall is_number xs).
  { apply List.Forall_forall. intros y Hy.
    rewrite List.Forall_forall in Hnum. apply Hnum, Hsame. by right. }
  exists first. eexists. split; [|split; [done|]].
  - simpl. f_equal. apply fold_min_first. intros y Hy.
    assert (Hin : In y (first :: rest)) by (apply Hsame; by right).
    pose proof (Hlo y Hin) as Hle.
    destruct (leb_true_number _ _ Hle) as [_ Hy'].
    apply ltb_false_rank; [done..|]. by apply leb_rank.
  - split; [reflexivity|].
    destruct (fold_max_greatest xs first Hfirst Hxs) as (Hin & Hg & Hmax).
    set (g := fold_left _ xs first) in *.
    assert (Hnumhi : is_number hi).
    { rewrite List.Forall_forall in Hnum. apply Hnum.
      apply list_elem_of_In. by apply last_Some_elem_of. }
    apply eqb_rank; [done..|]. apply rank_le_antisym.
    + apply Hmax, Hsame. apply list_elem_of_In. by apply last_Some_elem_of.
    + apply leb_rank; [done..|]. apply (Hhi hi g Hlast). by apply Hsame.
Qed.

(** *** The grid of any four corners *)

Lemma get_grid_coordinates_run corners grid w :
  get_grid_coordinates corners grid w
  = match grid_coordinates PrimFloat.ltb np_linspace corners grid with
    | Return grid_coords =>
        (Return grid_coords,
         emit (EvLog INFO MsgGridObtained)
           (emit (EvLog INFO MsgGettingGrid) w))
    | Raise e => (Raise e, emit (EvLog INFO MsgGettingGrid) w)
    end.
Proof.
  unfold get_grid_coordinates, mbind, M_bind, lift, log, mret, M_ret.
  by destruct (grid_coordinates _ _ _ _).
Qed.

(** The two axes: the extremes of the corners, and the samples between
    them. *)
Lemma grid_coordinates_axes corners grid :
  corners ≠ [] → 2 ≤ grid →
  ∃ min_lat max_lat min_lon max_lon lat_points lon_points,
    py_min PrimFloat.ltb (map fst corners) = Return min_lat
    ∧ py_max PrimFloat.ltb (map fst corners) = Return max_lat
    ∧ py_min PrimFloat.ltb (map snd corners) = Return min_lon
    ∧ py_max PrimFloat.ltb (map snd corners) = Return max_lon
    ∧ np_linspace min_lat max_lat grid = Return lat_points
    ∧ np_linspace min_lon max_lon grid = Return lon_points
    ∧ length lat_points = Z.to_nat grid
    ∧ length lon_points = Z.to_nat grid
    ∧ last lat_points = Some max_lat
    ∧ last lon_points = Some max_lon
    ∧ grid_coordinates PrimFloat.ltb np_linspace corners grid
      = Return (cross lat_points lon_points).
Proof.
  intros Hcorners Hgrid. destruct corners as [|[lat0 lon0] corners]; [done|].
  unfold grid_coordinates. cbn [map fst snd py_min py_max].
  set (min_lat := fold_left _ (map fst corners) lat0).
  set (max_lat := fold_left _ (map fst corners) lat0).
  set (min_lon := fold_left _ (map snd corners) lon0).
  set (max_lon := fold_left _ (map snd corners) lon0).
  destruct (np_linspace_samples min_lat max_lat grid Hgrid)
    as (lat_points & Hlat & Hlat_len & Hlat_last).
  destruct (np_linspace_samples min_lon max_lon grid Hgrid)
    as (lon_points & Hlon & Hlon_len & Hlon_last).
  exists min_lat, max_lat, min_lon, max_lon, lat_points, lon_points.
  repeat (split; [done|]).
  cbn [mbind result_bind]. rewrite Hlat. cbn [mbind result_bind].
  by rewrite Hlon.
Qed.

(** One axis of the grid, when it is regular. *)
Lemma regular_latitudes lo hi lat_points lon_points :
  axis_regular lo lat_points = true → last lat_points = Some hi →
  lon_points ≠ [] →
  ∃ m g,
    py_min PrimFloat.ltb (map fst (cross lat_points lon_points)) = Return m
    ∧ (m =? lo)%float = true
    ∧ py_max PrimFloat.ltb (map fst (cross lat_points lon_points)) = Return g
    ∧ (g =? hi)%float = true
    ∧ float_nondecreasing (map fst (cross lat_points lon_points)) = true.
Proof.
  intros Hregular Hlast Hlon.
  destruct (axis_regular_bounds lo lat_points Hregular)
    as (first & rest & Hpoints & _ & Hnum & Hsorted & _).
  destruct lon_points as [|lon0 lon_rest] eqn:Hlons; [done|].
  rewrite <- Hlons in *.
  assert (Hhead : ∃ xs, map fst (cross lat_points lon_points) = first :: xs).
  { rewrite Hpoints, fst_cross_cons, Hlons. simpl. by eexists. }
  destruct Hhead as (xs & Hxs).
  destruct (produced_extremes lo hi lat_points first xs)
    as (m & g & Hmin & Hm & Hmax & Hg); [done | done | by rewrite Hpoints | |].
  { intros y. rewrite <- Hxs. apply in_fst_cross. by rewrite Hlons. }
  exists m, g. rewrite Hxs. repeat (split; [done|]).
  rewrite <- Hxs. apply float_nondecreasing_sorted.
  by apply fst_cross_sorted.
Qed.

Lemma regular_longitudes lo hi lat_points lon_points :
  axis_regular lo lon_points = true → last lon_points = Some hi →
  lat_points ≠ [] →
  ∃ m g,
    py_min PrimFloat.ltb (map snd (cross lat_points lon_points)) = Return m
    ∧ (m =? lo)%float = true
    ∧ py_max PrimFloat.ltb (map snd (cross lat_points lon_points)) = Return g
    ∧ (g =? hi)%float = true.
Proof.
  intros Hregular Hlast Hlat.
  destruct (axis_regular_bounds lo lon_points Hregular)
    as (first & rest & Hpoints & _).
  destruct lat_points as [|lat0 lat_rest] eqn:Hlats; [done|].
  rewrite <- Hlats in *.
  assert (Hhead : ∃ xs, map snd (cross lat_points lon_points) = first :: xs).
  { rewrite Hlats, snd_cross_cons, Hpoints. simpl. by eexists. }
  destruct Hhead as (xs & Hxs).
  destruct (produced_extremes lo hi lon_points first xs)
    as (m & g & Hmin & Hm & Hmax & Hg); [done | done | by rewrite Hpoints | |].
  { intros y. rewrite <- Hxs. apply in_snd_cross. by rewrite Hlats. }
  exists m, g. by rewrite Hxs.
Qed.




(** *** The grid of the script, in binary64 *)

(** The grid that [main] walks: 64 coordinates, the rows of eight
    nondecreasing latitudes from the least to the greatest corner latitude,
    each with eight nondecreasing longitudes from the least to the greatest
    corner longitude. *)
Lemma grid_of_script_shape :
  get_grid_coordinates COORDINATES 8 initial_world
  = (Return weather_area,
     {| http_calls := 0; insert_calls := 0; clock_reads := 0;
        trace := [EvLog INFO MsgGettingGrid; EvLog INFO MsgGridObtained] |})
  ∧ weather_area = cross script_lat_points script_lon_points
  ∧ length weather_area = 64%nat
  ∧ py_min PrimFloat.ltb (map fst COORDINATES) = Return 2.066438%float
  ∧ py_max PrimFloat.ltb (map fst COORDINATES) = Return 2.187184%float
  ∧ py_min PrimFloat.ltb (map snd COORDINATES) = Return 117.560116%float
  ∧ py_max PrimFloat.ltb (map snd COORDINATES) = Return 117.6396%float
  ∧ head script_lat_points = Some 2.066438%float
  ∧ last script_lat_points = Some 2.187184%float
  ∧ head script_lon_points = Some 117.560116%float
  ∧ last script_lon_points = Some 117.6396%float
  ∧ float_nondecreasing script_lat_points = true
  ∧ float_nondecreasing script_lon_points = true.
Proof. repeat split; vm_compute; reflexivity. Qed.

(** * Further properties *)

(** ** The persistence writer at its edges *)

Lemma for_each_cons {A B : Type} (x : A) rest (body : A → M (option B)) w :
  for_each (x :: rest) body w
  = match body x w with
    | (Return (Some v), w') => (Return (Some v), w')
    | (Return None, w') => for_each rest body w'
    | (Raise e, w') => (Raise e, w')
    end.
Proof.
  cbn [for_each]. unfold mbind at 1, M_bind at 1.
  by destruct (body x w) as [[[v|]|e] w'].
Qed.

Section PersistenceEdges.

Variable env : Env.
Variables database collection : string.

(** An error of the driver that is no reconnect error is not retried: the
    first attempt that meets one ends the call with that error, without a
    pause. *)
Theorem insert_other_error_is_not_retried d max_retries e w :
  0 ≤ max_retries →
  insert_one env (insert_calls w) = Err e →
  issubclass e AutoReconnect = false →
  insert_data_to_mongodb env database collection (VDict d) max_retries w
  = (Raise e,
     advance (after_now w) 1
       [EvInsert database collection
          (VDict (stamp d (utc_now env (clock_reads w))))]).
Proof.
  intros Hm Herr Hsub. rewrite insert_data_to_mongodb_dict. unfold py_range.
  replace (Z.to_nat (max_retries + 1))
    with (S (Z.to_nat max_retries)) by lia.
  cbn [seq map]. rewrite for_each_cons.
  by rewrite insert_attempt_other with (e := e).
Qed.

(** Data that is no dict cannot take the two ingestion fields: the call
    raises [TypeError] before it reads the clock or reaches the driver. *)
Theorem insert_rejects_non_dict data max_retries w :
  (∀ d, data ≠ VDict d) →
  insert_data_to_mongodb env database collection data max_retries w
  = (Raise TypeError, w).
Proof.
  intros Hdata. destruct data; try reflexivity. by destruct (Hdata d).
Qed.

(** With a negative [max_retries] the loop has no round: the reading is
    stamped, nothing is handed to the driver, and the call returns [None]. *)
Theorem insert_negative_retries_does_nothing d max_retries w :
  max_retries < 0 →
  insert_data_to_mongodb env database collection (VDict d) max_retries w
  = (Return None, after_now w).
Proof.
  intros Hm. rewrite insert_data_to_mongodb_dict. unfold py_range.
  by replace (Z.to_nat (max_retries + 1)) with 0%nat by lia.
Qed.

(** From attempt [first] on, with [k + 1] attempts left before the one that
    gives up: the loop ends in a result or an exception, within [k + 1]
    inserts. *)
Lemma retry_loop_bound doc max_retries (k : nat) : ∀ (first : nat) w,
  Z.of_nat (first + k + 1) = max_retries →
  let run := for_each (map Z.of_nat (seq first (k + 2)))
               (insert_attempt env database collection doc max_retries) w in
  run.1 ≠ Return None
  ∧ (insert_calls w < insert_calls run.2 ≤ insert_calls w + k + 1)%nat.
Proof.
  induction k as [|k IH]; intros first w Hfirst run; subst run;
    cbn [Nat.add seq map]; rewrite for_each_cons.
  - destruct (insert_one env (insert_calls w)) as [r|e] eqn:Hone.
    + rewrite insert_attempt_ok with (r := r) by done. simpl.
      split; [done | lia].
    + destruct (issubclass e AutoReconnect) eqn:Hsub.
      * rewrite insert_attempt_final with (e := e) by (done || lia). simpl.
        split; [done | lia].
      * rewrite insert_attempt_other with (e := e) by done. simpl.
        split; [done | lia].
  - destruct (insert_one env (insert_calls w)) as [r|e] eqn:Hone.
    + rewrite insert_attempt_ok with (r := r) by done. simpl.
      split; [done | lia].
    + destruct (issubclass e AutoReconnect) eqn:Hsub.
      * rewrite insert_attempt_retry; [| by exists e | lia].
        destruct (IH (S first)
                    (advance w 1 (failed_round database collection doc
                                    (Z.of_nat first)))) as [Hres Hcalls];
          [lia|].
        cbn [Nat.add seq map] in Hres, Hcalls.
        split; [exact Hres|]. simpl in Hcalls. lia.
      * rewrite insert_attempt_other with (e := e) by done. simpl.
        split; [done | lia].
Qed.


End PersistenceEdges.

Lemma insert_other_error_is_not_retried_witness :
  insert_data_to_mongodb (sample_env no_http store_rejects)
    "weather-tracking-system" "open-weather-raw" (VDict reading_temp) 5
    initial_world
  = (Raise DuplicateKeyError,
     {| http_calls := 0; insert_calls := 1; clock_reads := 1;
        trace :=
          [ EvNow;
            EvInsert "weather-tracking-system" "open-weather-raw"
              (VDict (stamp reading_temp 1700000000000000)) ] |}).
Proof.
  apply (insert_other_error_is_not_retried (sample_env no_http store_rejects)
           "weather-tracking-system" "open-weather-raw" reading_temp 5
           DuplicateKeyError initial_world).
  - lia.
  - reflexivity.
  - reflexivity.
Defined.

Lemma insert_rejects_non_dict_witness :
  insert_data_to_mongodb (sample_env no_http store_up)
    "weather-tracking-system" "open-weather-raw" (VList [VInt 300]) 5
    initial_world
  = (Raise TypeError, initial_world).
Proof.
  apply (insert_rejects_non_dict (sample_env no_http store_up)
           "weather-tracking-system" "open-weather-raw" (VList [VInt 300]) 5
           initial_world).
  intros d. discriminate.
Defined.

Lemma insert_negative_retries_does_nothing_witness :
  insert_data_to_mongodb (sample_env no_http store_up)
    "weather-tracking-system" "open-weather-raw" (VDict reading_temp) (-1)
    initial_world
  = (Return None,
     {| http_calls := 0; insert_calls := 0; clock_reads := 1;
        trace := [EvNow] |}).
Proof.
  apply (insert_negative_retries_does_nothing (sample_env no_http store_up)
           "weather-tracking-system" "open-weather-raw" reading_temp (-1)
           initial_world).
  lia.
Defined.


(** ** The weather fetcher at its edges *)

(** An error response whose body is JSON but no object (a list, a string, a
    number, [null]) cannot be indexed by ["message"]: the function raises
    [TypeError]. *)
Theorem get_current_weather_non_object_body env url appid lat lon query_dict
    w resp v :
  requests_get env (http_calls w) = Ok resp →
  status_code resp ≠ 200 →
  json_loads env (text resp) = Some v →
  (∀ d, v ≠ VDict d) →
  get_current_weather env url appid lat lon query_dict w
  = (Raise TypeError, fetched w (request_events env lat lon query_dict)).
Proof.
  intros Hget Hstatus Hjson Hv.
  rewrite get_current_weather_error with (resp := resp) (v := v) by done.
  destruct v; try reflexivity. by destruct (Hv d).
Qed.

Lemma get_current_weather_non_object_body_witness :
  let env :=
    {| APIKEY := "owm-key";
       MONGODB_URI := "mongodb://localhost:27017";
       HEALTHCHECK_URL := "https://hc.example/ping";
       json_loads := λ s, if decide (s = "[]") then Some (VList []) else None;
       requests_get := http_always 500 "[]";
       admin_ping := Ok tt;
       insert_one := store_up;
       utc_now := λ n, Z.of_nat n |} in
  (get_current_weather env BASEURL "owm-key" 2.066438 117.560116 ∅
     initial_world).1
  = Raise TypeError.
Proof.
  intros env.
  rewrite (get_current_weather_non_object_body env BASEURL "owm-key"
             2.066438 117.560116 ∅ initial_world
             {| status_code := 500; text := "[]" |} (VList []));
    [ reflexivity | reflexivity | simpl; lia | reflexivity
    | intros d; discriminate ].
Defined.

(** ** Exceptions in the loop *)

(** Unlike [healthcheck], the loop body does not catch a failure of its
    request: an exception of [requests.get] leaves the body as it is, after
    the request and before anything else. *)
Theorem fetch_failure_leaves_the_loop_body env processed_data lat lon w e :
  requests_get env (http_calls w) = Err e →
  ingest_point env processed_data (lat, lon) w
  = (Raise e, fetched w (request_events env lat lon ∅)).
Proof.
  intros Hget. rewrite ingest_point_unfold.
  by rewrite get_current_weather_no_response with (e := e).
Qed.

Lemma fetch_failure_leaves_the_loop_body_witness :
  ingest_point (sample_env no_http store_up) 0 (2.066438, 117.560116)%float
    initial_world
  = (Raise RequestsConnectionError,
     {| http_calls := 1; insert_calls := 0; clock_reads := 0;
        trace :=
          [ EvLog DEBUG (MsgGettingWeather 2.066438 117.560116);
            EvGet BASEURL
              {[ "appid" := VStr "owm-key"; "lat" := VFloat 2.066438;
                 "lon" := VFloat 117.560116 ]} None ] |}).
Proof.
  rewrite (fetch_failure_leaves_the_loop_body (sample_env no_http store_up) 0
             2.066438 117.560116 initial_world RequestsConnectionError);
    [ vm_compute; reflexivity | reflexivity ].
Defined.

(** An exception of [insert_data_to_mongodb] (the reconnect error it gives
    up on, or any other error of the driver) leaves the loop body too, from
    the world the call left: the reading is not counted, and neither the
    liveness ping nor the sleep follows. *)
Theorem storage_failure_leaves_the_loop_body env processed_data lat lon w
    resp d e w2 :
  requests_get env (http_calls w) = Ok resp →
  status_code resp = 200 →
  json_loads env (text resp) = Some (VDict d) →
  d ≠ ∅ →
  insert_data_to_mongodb env "weather-tracking-system" "open-weather-raw"
    (VDict d) 5
    (emit (EvLog DEBUG (MsgApiFinished (Z.of_nat (size d))))
       (fetched w (request_events env lat lon ∅
                   ++ [EvLog DEBUG MsgApiSuccess])))
  = (Raise e, w2) →
  ingest_point env processed_data (lat, lon) w = (Raise e, w2).
Proof.
  intros Hget Hstatus Hjson Hd Hinsert. rewrite ingest_point_unfold.
  rewrite get_current_weather_200 with (resp := resp) (v := VDict d) by done.
  cbn [eq_empty_dict]. rewrite bool_decide_eq_false_2 by done.
  unfold persist_reading. unfold mbind, M_bind, lift, log. cbn [py_len].
  by rewrite Hinsert.
Qed.

Lemma storage_failure_leaves_the_loop_body_witness :
  let run := ingest_point (sample_env (http_always 200 body_temp) store_down)
               0 (2.066438, 117.560116)%float initial_world in
  run.1 = Raise AutoReconnect
  ∧ insert_calls run.2 = 5%nat
  ∧ sleeps_of (trace run.2) = [PyInt 1; PyInt 4; PyInt 9; PyInt 16].
Proof.
  intros run. subst run.
  rewrite (storage_failure_leaves_the_loop_body
             (sample_env (http_always 200 body_temp) store_down) 0
             2.066438 117.560116 initial_world
             {| status_code := 200; text := body_temp |} reading_temp
             AutoReconnect
             (insert_data_to_mongodb
                (sample_env (http_always 200 body_temp) store_down)
                "weather-tracking-system" "open-weather-raw"
                (VDict reading_temp) 5
                (emit (EvLog DEBUG (MsgApiFinished 1))
                   (fetched initial_world
                      (request_events
                         (sample_env (http_always 200 body_temp) store_down)
                         2.066438 117.560116 ∅
                       ++ [EvLog DEBUG MsgApiSuccess])))).2);
    [ repeat split; vm_compute; reflexivity
    | reflexivity | reflexivity | vm_compute; reflexivity
    | vm_compute; discriminate
    | vm_compute; reflexivity ].
Defined.

(** Nothing in [main] catches an exception of the loop body: when, after
    [c1] whole cycles and the points [done] of the next, the body raises at a
    grid point, [main] ends with that exception, in the world the body
    left. *)
Theorem main_has_no_recovery env c1 c2 done point rest w n1 w1 n2 w2 e w3 :
  weather_area = done ++ point :: rest →
  main env c1 w = (Return n1, w1) →
  ingest_grid env done n1 w1 = (Return n2, w2) →
  ingest_point env n2 point w2 = (Raise e, w3) →
  main env (c1 + S c2) w = (Raise e, w3).
Proof.
  intros Harea Hmain Hdone Hpoint.
  rewrite main_unfold in *. rewrite ingest_forever_add, Hmain.
  cbn [ingest_forever]. unfold mbind at 1, M_bind at 1.
  rewrite Harea, ingest_grid_app, Hdone. cbn [ingest_grid].
  unfold mbind at 1, M_bind at 1. by rewrite Hpoint.
Qed.

Lemma main_has_no_recovery_witness :
  (main (sample_env no_http store_up) 3 initial_world).1
  = Raise RequestsConnectionError.
Proof.
  pose (env := sample_env no_http store_up).
  pose proof (main_has_no_recovery env 0 2 [] (2.066438, 117.560116)%float
                (tail weather_area) initial_world 0
                (started env initial_world) 0 (started env initial_world)
                RequestsConnectionError
                (fetched (started env initial_world)
                   (request_events env 2.066438 117.560116 ∅))
                eq_refl eq_refl eq_refl eq_refl) as Hmain.
  change (0 + 3)%nat with 3%nat in Hmain. fold env. by rewrite Hmain.
Defined.

(** ** What the counter counts *)

Lemma acknowledged_app evs1 evs2 :
  acknowledged (evs1 ++ evs2) = acknowledged evs1 ++ acknowledged evs2.
Proof. unfold acknowledged. apply omap_app. Qed.

Lemma pings_app evs1 evs2 : pings (evs1 ++ evs2) = pings evs1 ++ pings evs2.
Proof. unfold pings. apply omap_app. Qed.

Lemma read_intervals_app evs1 evs2 :
  read_intervals (evs1 ++ evs2) = read_intervals evs1 ++ read_intervals evs2.
Proof. unfold read_intervals. apply omap_app. Qed.

Lemma div_25_succ n :
  0 ≤ n →
  (n + 1) `div` 25
  = n `div` 25 + (if (n + 1) `mod` 25 =? 0 then 1 else 0).
Proof.
  intros Hn. destruct (Z.eqb_spec ((n + 1) `mod` 25) 0) as [Hmod|Hmod];
    Z.div_mod_to_equations; lia.
Qed.

Section Tallies.

Variable env : Env.

Lemma get_current_weather_quiet url appid lat lon query_dict w :
  ∃ evs,
    trace (get_current_weather env url appid lat lon query_dict w).2
    = trace w ++ evs
    ∧ quiet evs.
Proof.
  destruct (requests_get env (http_calls w)) as [resp|e] eqn:Hget.
  - destruct (json_loads env (text resp)) as [v|] eqn:Hjson.
    + destruct (decide (status_code resp = 200)) as [Hs|Hs].
      * rewrite get_current_weather_200 with (resp := resp) (v := v) by done.
        by eexists.
      * rewrite get_current_weather_error with (resp := resp) (v := v)
          by done.
        destruct (getitem v "message"); by eexists.
    + rewrite get_current_weather_not_json with (resp := resp) by done.
      by eexists.
  - rewrite get_current_weather_no_response with (e := e) by done.
    by eexists.
Qed.

Lemma insert_attempt_tally database collection doc max_retries attempt w :
  let run := insert_attempt env database collection doc max_retries attempt
               w in
  ∃ evs,
    trace run.2 = trace w ++ evs
    ∧ pings evs = [] ∧ read_intervals evs = []
    ∧ length (acknowledged evs) = acknowledgements run.1.
Proof.
  intros run. subst run.
  destruct (insert_one env (insert_calls w)) as [r|e] eqn:Hone.
  - rewrite insert_attempt_ok with (r := r) by done. by eexists.
  - destruct (issubclass e AutoReconnect) eqn:Hsub.
    + destruct (decide (attempt + 1 = max_retries)) as [Heq|Hne].
      * rewrite insert_attempt_final with (e := e) by done. by eexists.
      * rewrite insert_attempt_retry; [| by exists e | done]. by eexists.
    + rewrite insert_attempt_other with (e := e) by done. by eexists.
Qed.

Lemma retry_loop_tally database collection doc max_retries attempts : ∀ w,
  let run := for_each attempts
               (insert_attempt env database collection doc max_retries) w in
  ∃ evs,
    trace run.2 = trace w ++ evs
    ∧ pings evs = [] ∧ read_intervals evs = []
    ∧ length (acknowledged evs) = acknowledgements run.1.
Proof.
  induction attempts as [|attempt rest IH]; intros w run; subst run.
  - exists []. by rewrite app_nil_r.
  - rewrite for_each_cons.
    destruct (insert_attempt_tally database collection doc max_retries
                attempt w) as (evs1 & Htrace1 & Hp1 & Hi1 & Ha1).
    destruct (insert_attempt env database collection doc max_retries
                attempt w) as [[[r|]|e] w1]; simpl in Htrace1, Ha1.
    + by exists evs1.
    + destruct (IH w1) as (evs2 & Htrace2 & Hp2 & Hi2 & Ha2).
      exists (evs1 ++ evs2).
      rewrite Htrace2, Htrace1, app_assoc, pings_app, read_intervals_app,
        acknowledged_app, Hp1, Hp2, Hi1, Hi2, length_app, Ha1, Ha2.
      done.
    + by exists evs1.
Qed.

(** A call with [max_retries >= 1] that returns has had exactly one insert
    acknowledged. *)
Lemma insert_data_to_mongodb_tally database collection data max_retries w :
  1 ≤ max_retries →
  let run := insert_data_to_mongodb env database collection data max_retries
               w in
  ∃ evs,
    trace run.2 = trace w ++ evs
    ∧ pings evs = [] ∧ read_intervals evs = []
    ∧ ∀ r, run.1 = Return r → length (acknowledged evs) = 1%nat.
Proof.
  intros Hm run. subst run.
  destruct data as [| | | | | | |d];
    try (exists []; rewrite app_nil_r; by repeat split).
  - pose proof (retry_loop_bound env database collection
                  (VDict (stamp d (utc_now env (clock_reads w)))) max_retries
                  (Z.to_nat max_retries - 1) 0 (after_now w)
                  ltac:(lia)) as [Hres _].
    rewrite insert_data_to_mongodb_dict. unfold py_range.
    replace (Z.to_nat (max_retries + 1))
      with (Z.to_nat max_retries - 1 + 2)%nat by lia.
    cbn zeta in Hres.
    destruct (retry_loop_tally database collection
                (VDict (stamp d (utc_now env (clock_reads w)))) max_retries
                (map Z.of_nat (seq 0 (Z.to_nat max_retries - 1 + 2)))
                (after_now w)) as (evs & Htrace & Hp & Hi & Ha).
    exists (EvNow :: evs). rewrite Htrace. simpl.
    split; [by rewrite <- app_assoc|].
    split; [exact Hp|]. split; [exact Hi|].
    intros r Hr. change (acknowledged (EvNow :: evs)) with (acknowledged evs).
    rewrite Ha, Hr. rewrite Hr in Hres. by destruct r.
Qed.

End Tallies.

Lemma tallied_quiet n evs evs' :
  tallied n evs → quiet evs' → tallied n (evs ++ evs').
Proof.
  intros (Hn & Ha & Hi & Hp) (Ha' & Hp' & Hi'). unfold tallied.
  rewrite acknowledged_app, read_intervals_app, pings_app, Ha', Hi', Hp',
    !app_nil_r.
  done.
Qed.

Lemma tallied_persisted n evs evs' :
  tallied n evs →
  length (acknowledged evs') = 1%nat →
  length (read_intervals evs') = 1%nat →
  Z.of_nat (length (pings evs')) = (if (n + 1) `mod` 25 =? 0 then 1 else 0) →
  tallied (n + 1) (evs ++ evs').
Proof.
  intros (Hn & Ha & Hi & Hp) Ha' Hi' Hp'. unfold tallied.
  rewrite acknowledged_app, read_intervals_app, pings_app, !length_app,
    Ha', Hi', div_25_succ by done.
  repeat split; lia.
Qed.

Section Counter.

Variable env : Env.

Lemma healthcheck_tally hcurl w :
  ∃ evs,
    trace (healthcheck env hcurl w).2 = trace w ++ evs
    ∧ acknowledged evs = [] ∧ read_intervals evs = []
    ∧ length (pings evs) = 1%nat.
Proof.
  unfold healthcheck, try_except, get. run.
  destruct (requests_get env (http_calls w)) as [resp|e]; simpl.
  - by eexists.
  - destruct (issubclass e RequestException); simpl.
    + exists [EvGet hcurl ∅ (Some 10); EvLog ERROR MsgHealthFailure].
      by rewrite <- app_assoc.
    + by eexists.
Qed.

(** A reading that is persisted keeps the tallies in step with the
    counter. *)
Lemma persist_reading_tallied n data w n' w' :
  persist_reading env n data w = (Return n', w') →
  tallied n (trace w) →
  n' = n + 1 ∧ tallied n' (trace w').
Proof.
  unfold persist_reading, mbind, M_bind, lift, log.
  destruct (py_len data) as [len|e]; [|discriminate].
  destruct (insert_data_to_mongodb_tally env "weather-tracking-system"
              "open-weather-raw" data 5
              (emit (EvLog DEBUG (MsgApiFinished len)) w) ltac:(lia))
    as (evs1 & Htrace1 & Hp1 & Hi1 & Ha1).
  destruct (insert_data_to_mongodb env "weather-tracking-system"
              "open-weather-raw" data 5
              (emit (EvLog DEBUG (MsgApiFinished len)) w))
    as [[r|e] w1]; [|discriminate].
  simpl in Htrace1. specialize (Ha1 r eq_refl).
  destruct (Z.eqb_spec ((n + 1) `mod` 25) 0) as [Hmod|Hmod].
  - destruct (healthcheck_tally (HEALTHCHECK_URL env)
                (emit (EvLog INFO (MsgProcessed (n + 1))) w1))
      as (evs2 & Htrace2 & Ha2 & Hi2 & Hp2).
    destruct (healthcheck env (HEALTHCHECK_URL env)
                (emit (EvLog INFO (MsgProcessed (n + 1))) w1))
      as [[[]|e] w2]; [|discriminate].
    simpl in Htrace2. unfold sleep, mret, M_ret, emit. intros [= <- <-] Hw.
    split; [done|]. cbn [trace]. rewrite Htrace2, Htrace1.
    rewrite <- !app_assoc.
    apply tallied_persisted; [done| | |].
    + rewrite !acknowledged_app, !length_app, Ha1, Ha2. done.
    + rewrite !read_intervals_app, !length_app, Hi1, Hi2. done.
    + rewrite !pings_app, !length_app, Hp1, Hp2.
      destruct (Z.eqb_spec ((n + 1) `mod` 25) 0); [done | lia].
  - unfold sleep, mret, M_ret, emit. intros [= <- <-] Hw.
    split; [done|]. cbn [trace]. rewrite Htrace1.
    rewrite <- !app_assoc.
    apply tallied_persisted; [done| | |].
    + rewrite !acknowledged_app, !length_app, Ha1. done.
    + rewrite !read_intervals_app, !length_app, Hi1. done.
    + rewrite !pings_app, !length_app, Hp1.
      destruct (Z.eqb_spec ((n + 1) `mod` 25) 0); [lia | done].
Qed.

Lemma ingest_point_tallied n point w n' w' :
  ingest_point env n point w = (Return n', w') →
  tallied n (trace w) →
  tallied n' (trace w').
Proof.
  destruct point as [lat lon]. rewrite ingest_point_unfold.
  destruct (get_current_weather_quiet env BASEURL (APIKEY env) lat lon ∅ w)
    as (evs & Htrace & Hquiet).
  destruct (get_current_weather env BASEURL (APIKEY env) lat lon ∅ w)
    as [[data|e] w1]; [|discriminate].
  simpl in Htrace. intros Hrun Hw.
  assert (Hw1 : tallied n (trace w1))
    by (rewrite Htrace; by apply tallied_quiet).
  destruct (eq_empty_dict data).
  - injection Hrun as <- <-. unfold emit; cbn [trace].
    by apply tallied_quiet.
  - by destruct (persist_reading_tallied n data w1 n' w' Hrun Hw1).
Qed.

Lemma ingest_grid_tallied area : ∀ n w n' w',
  ingest_grid env area n w = (Return n', w') →
  tallied n (trace w) →
  tallied n' (trace w').
Proof.
  induction area as [|point rest IH]; intros n w n' w'.
  - by intros [= <- <-].
  - cbn [ingest_grid]. unfold mbind at 1, M_bind at 1.
    destruct (ingest_point env n point w) as [[n1|e] w1] eqn:Hpoint;
      [|discriminate].
    intros Hrest Hw. apply (IH n1 w1); [done|].
    by apply (ingest_point_tallied n point w).
Qed.

Lemma ingest_forever_tallied cycles area : ∀ n w n' w',
  ingest_forever env cycles area n w = (Return n', w') →
  tallied n (trace w) →
  tallied n' (trace w').
Proof.
  induction cycles as [|cycles IH]; intros n w n' w'.
  - by intros [= <- <-].
  - cbn [ingest_forever]. unfold mbind at 1, M_bind at 1.
    destruct (ingest_grid env area n w) as [[n1|e] w1] eqn:Hgrid;
      [|discriminate].
    intros Hrest Hw. apply (IH n1 w1); [done|].
    by apply (ingest_grid_tallied area n w).
Qed.

Lemma main_tallied cycles n w :
  main env cycles initial_world = (Return n, w) → tallied n (trace w).
Proof.
  rewrite main_unfold. intros Hrun.
  apply (ingest_forever_tallied cycles weather_area 0
           (started env initial_world)); [done|].
  unfold tallied, started, startup_events. cbn [trace initial_world app].
  by destruct (admin_ping env).
Qed.

End Counter.

(** In every run of [main] observed over whole cycles that it survived,
    [processed_data] is the number of inserts that the store acknowledged,
    and the number of read intervals slept: a skipped point counts for
    neither. *)
Theorem counter_counts_acknowledged_inserts env cycles n w :
  main env cycles initial_world = (Return n, w) →
  0 ≤ n
  ∧ Z.of_nat (length (acknowledged (trace w))) = n
  ∧ Z.of_nat (length (read_intervals (trace w))) = n.
Proof.
  intros Hrun. by destruct (main_tallied env cycles n w Hrun) as (? & ? & ? & _).
Qed.

Lemma counter_counts_acknowledged_inserts_witness :
  let run := main (sample_env (http_always 200 body_temp) store_up) 1
               initial_world in
  run.1 = Return 64
  ∧ length (acknowledged (trace run.2)) = 64%nat
  ∧ length (read_intervals (trace run.2)) = 64%nat.
Proof.
  intros run.
  assert (Hrun : main (sample_env (http_always 200 body_temp) store_up) 1
                   initial_world = (Return 64, run.2))
    by (vm_compute; reflexivity).
  destruct (counter_counts_acknowledged_inserts _ _ _ _ Hrun)
    as (_ & Hacks & Hsleeps).
  split; [vm_compute; reflexivity|]. split; lia.
Defined.

(** In such a run the liveness reporter has been called once for every 25
    readings counted: the requests sent with a timeout number
    [processed_data // 25]. *)
Theorem liveness_ping_every_25_readings env cycles n w :
  main env cycles initial_world = (Return n, w) →
  Z.of_nat (length (pings (trace w))) = n `div` 25.
Proof.
  intros Hrun. by destruct (main_tallied env cycles n w Hrun) as (_ & _ & _ & ?).
Qed.

Lemma liveness_ping_every_25_readings_witness :
  let run := main (sample_env (http_always 200 body_temp) store_up) 1
               initial_world in
  run.1 = Return 64 ∧ length (pings (trace run.2)) = 2%nat.
Proof.
  intros run.
  assert (Hrun : main (sample_env (http_always 200 body_temp) store_up) 1
                   initial_world = (Return 64, run.2))
    by (vm_compute; reflexivity).
  pose proof (liveness_ping_every_25_readings _ _ _ _ Hrun) as Hpings.
  change (64 `div` 25) with 2 in Hpings.
  split; [vm_compute; reflexivity | lia].
Defined.

(** ** A failing upstream *)

Section FailingUpstream.

Variable env : Env.
Hypothesis failing : ∀ i, upstream_error env (requests_get env i).

Lemma ingest_point_skips n point w :
  ∃ evs,
    ingest_point env n point w = (Return n, fetched w evs)
    ∧ sleeps_of evs = [] ∧ inserted_documents evs = []
    ∧ length (requests_of evs) = 1%nat.
Proof.
  destruct point as [lat lon].
  destruct (failing (http_calls w))
    as (resp & d & errmsg & Hget & Hstatus & Hjson & Hmsg).
  exists (skipped_point_events env lat lon errmsg (status_code resp)).
  split; [|done].
  rewrite ingest_point_unfold.
  rewrite get_current_weather_error with (resp := resp) (v := VDict d)
    by done.
  simpl. rewrite Hmsg. simpl.
  unfold emit, fetched, skipped_point_events. simpl.
  by rewrite <- !app_assoc.
Qed.

Lemma ingest_grid_skips area : ∀ n w,
  ∃ w' evs,
    ingest_grid env area n w = (Return n, w')
    ∧ http_calls w' = (http_calls w + length area)%nat
    ∧ insert_calls w' = insert_calls w
    ∧ trace w' = trace w ++ evs
    ∧ sleeps_of evs = [] ∧ inserted_documents evs = []
    ∧ length (requests_of evs) = length area.
Proof.
  induction area as [|point rest IH]; intros n w.
  - exists w, []. rewrite app_nil_r. cbn [length]. by rewrite Nat.add_0_r.
  - destruct (ingest_point_skips n point w)
      as (evs1 & Hpoint & Hs1 & Hd1 & Hr1).
    destruct (IH n (fetched w evs1))
      as (w' & evs2 & Hrest & Hhttp & Hins & Htrace & Hs2 & Hd2 & Hr2).
    exists w', (evs1 ++ evs2).
    cbn [ingest_grid]. unfold mbind at 1, M_bind at 1.
    rewrite Hpoint, Hrest, Hhttp, Hins, Htrace.
    unfold requests_of in *.
    rewrite sleeps_of_app, inserted_documents_app, omap_app, length_app,
      Hs1, Hs2, Hd1, Hd2, Hr1, Hr2.
    cbn [fetched http_calls insert_calls trace length].
    repeat split; try lia; try done; by rewrite app_assoc.
Qed.

(** While the upstream answers every request with an error status and a
    message, the loop requests one grid point after the other without any
    sleep: [cycles] walks over the grid make [cycles * len(weather_area)]
    requests, no insert, and leave the counter unchanged. *)
Theorem failing_upstream_is_polled_without_pause cycles area : ∀ n w,
  ∃ w' evs,
    ingest_forever env cycles area n w = (Return n, w')
    ∧ http_calls w' = (http_calls w + cycles * length area)%nat
    ∧ trace w' = trace w ++ evs
    ∧ sleeps_of evs = [] ∧ inserted_documents evs = []
    ∧ length (requests_of evs) = (cycles * length area)%nat.
Proof.
  induction cycles as [|cycles IH]; intros n w.
  - exists w, []. rewrite app_nil_r. cbn [Nat.mul]. by rewrite Nat.add_0_r.
  - destruct (ingest_grid_skips area n w)
      as (w1 & evs1 & Hgrid & Hhttp1 & _ & Htrace1 & Hs1 & Hd1 & Hr1).
    destruct (IH n w1)
      as (w' & evs2 & Hrest & Hhttp & Htrace & Hs2 & Hd2 & Hr2).
    exists w', (evs1 ++ evs2).
    cbn [ingest_forever]. unfold mbind at 1, M_bind at 1.
    rewrite Hgrid, Hrest, Hhttp, Hhttp1, Htrace, Htrace1.
    unfold requests_of in *.
    rewrite sleeps_of_app, inserted_documents_app, omap_app, length_app,
      Hs1, Hs2, Hd1, Hd2, Hr1, Hr2.
    repeat split; try lia; try done; by rewrite app_assoc.
Qed.

End FailingUpstream.

Lemma failing_upstream_is_polled_without_pause_witness :
  let run := ingest_forever
               (sample_env (http_always 401 body_not_found) store_up) 3
               weather_area 0 initial_world in
  run.1 = Return 0
  ∧ http_calls run.2 = 192%nat
  ∧ sleeps_of (trace run.2) = [].
Proof.
  intros run.
  assert (Hfailing :
            ∀ i, upstream_error
                   (sample_env (http_always 401 body_not_found) store_up)
                   (requests_get
                      (sample_env (http_always 401 body_not_found) store_up)
                      i)).
  { intros i.
    exists {| status_code := 401; text := body_not_found |},
      {["message" := VStr "city not found"]}, (VStr "city not found").
    split; [reflexivity|]. split; [simpl; lia|].
    split; vm_compute; reflexivity. }
  destruct (failing_upstream_is_polled_without_pause
              (sample_env (http_always 401 body_not_found) store_up)
              Hfailing 3 weather_area 0 initial_world)
    as (w' & evs & Hrun & Hhttp & Htrace & Hsleeps & _).
  subst run. rewrite Hrun. cbn [fst snd].
  split; [done|]. split; [rewrite Hhttp; reflexivity|].
  rewrite Htrace. exact Hsleeps.
Defined.

(** ** Starting up *)

(** A failed ping of the store at start-up, whatever its exception, does not
    stop [main]: it is logged, and the loop starts from a world that has
    seen no request, no insert and no reading of the clock. *)
Theorem startup_ping_failure_is_not_fatal env e cycles w :
  admin_ping env = Err e →
  main env cycles w
  = ingest_forever env cycles weather_area 0
      {| http_calls := http_calls w; insert_calls := insert_calls w;
         clock_reads := clock_reads w;
         trace := trace w
                  ++ [ EvLog INFO MsgGettingGrid; EvLog INFO MsgGridObtained;
                       EvLog INFO MsgConnecting; EvLog INFO MsgPingStart;
                       EvPing; EvLog ERROR MsgPingFailure ] |}.
Proof.
  intros Hping. rewrite main_unfold. unfold started, startup_events.
  by rewrite Hping.
Qed.

Lemma startup_ping_failure_is_not_fatal_witness :
  let env :=
    {| APIKEY := "owm-key";
       MONGODB_URI := "mongodb://localhost:27017";
       HEALTHCHECK_URL := "https://hc.example/ping";
       json_loads := sample_loads;
       requests_get := http_always 404 body_not_found;
       admin_ping := Err ServerSelectionTimeoutError;
       insert_one := store_down;
       utc_now := λ n, Z.of_nat n |} in
  (main env 1 initial_world).1 = Return 0
  ∧ http_calls (main env 1 initial_world).2 = 64%nat.
Proof.
  intros env.
  rewrite (startup_ping_failure_is_not_fatal env ServerSelectionTimeoutError
             1 initial_world eq_refl).
  split; vm_compute; reflexivity.
Defined.

(** ** The grid generator: order of the corners, bounding box *)

Lemma py_min_permutation xs ys :
  Permutation xs ys → forallb ordinary xs = true →
  py_min PrimFloat.ltb xs = py_min PrimFloat.ltb ys.
Proof.
  intros Hperm Hord. rewrite forallb_forall in Hord.
  destruct xs as [|x xs'].
  { by rewrite (Permutation_nil Hperm). }
  destruct ys as [|y ys'].
  { by apply Permutation_sym, Permutation_nil in Hperm. }
  assert (Hnum : ∀ l, (∀ z, In z l → In z (x :: xs')) → Forall is_number l).
  { intros l Hl. apply List.Forall_forall. intros z Hz.
    by apply ordinary_number, Hord, Hl. }
  assert (Hback : ∀ z, In z (y :: ys') → In z (x :: xs'))
    by (intros z; apply Permutation_in; by apply Permutation_sym).
  destruct (fold_min_least xs' x) as (Hin & _ & Hleast).
  { apply ordinary_number, Hord. by left. }
  { apply Hnum. intros z Hz. by right. }
  destruct (fold_min_least ys' y) as (Hin' & _ & Hleast').
  { apply ordinary_number, Hord, Hback. by left. }
  { apply Hnum. intros z Hz. apply Hback. by right. }
  simpl. f_equal. apply ordinary_frank_inj.
  - by apply Hord.
  - by apply Hord, Hback.
  - apply rank_le_antisym.
    + apply Hleast'. by apply (Permutation_in _ Hperm).
    + apply Hleast. by apply Hback.
Qed.

Lemma py_max_permutation xs ys :
  Permutation xs ys → forallb ordinary xs = true →
  py_max PrimFloat.ltb xs = py_max PrimFloat.ltb ys.
Proof.
  intros Hperm Hord. rewrite forallb_forall in Hord.
  destruct xs as [|x xs'].
  { by rewrite (Permutation_nil Hperm). }
  destruct ys as [|y ys'].
  { by apply Permutation_sym, Permutation_nil in Hperm. }
  assert (Hnum : ∀ l, (∀ z, In z l → In z (x :: xs')) → Forall is_number l).
  { intros l Hl. apply List.Forall_forall. intros z Hz.
    by apply ordinary_number, Hord, Hl. }
  assert (Hback : ∀ z, In z (y :: ys') → In z (x :: xs'))
    by (intros z; apply Permutation_in; by apply Permutation_sym).
  destruct (fold_max_greatest xs' x) as (Hin & _ & Hgreatest).
  { apply ordinary_number, Hord. by left. }
  { apply Hnum. intros z Hz. by right. }
  destruct (fold_max_greatest ys' y) as (Hin' & _ & Hgreatest').
  { apply ordinary_number, Hord, Hback. by left. }
  { apply Hnum. intros z Hz. apply Hback. by right. }
  simpl. f_equal. apply ordinary_frank_inj.
  - by apply Hord.
  - by apply Hord, Hback.
  - apply rank_le_antisym.
    + apply Hgreatest. by apply Hback.
    + apply Hgreatest'. by apply (Permutation_in _ Hperm).
Qed.

(** X19: in binary64, for corners of which no coordinate is NaN or the
    negative zero, the computation of [get_grid_coordinates] does not
    depend on the order of the corners: any permutation of them gives the
    same result, for every grid density. *)
Theorem grid_coordinates_permutation corners corners' grid :
  Permutation corners corners' →
  forallb ordinary (map fst corners) = true →
  forallb ordinary (map snd corners) = true →
  grid_coordinates PrimFloat.ltb np_linspace corners grid
  = grid_coordinates PrimFloat.ltb np_linspace corners' grid.
Proof.
  intros Hperm Hlat Hlon. unfold grid_coordinates.
  rewrite (py_min_permutation (map fst corners) (map fst corners'))
    by (by try apply Permutation_map).
  rewrite (py_max_permutation (map fst corners) (map fst corners'))
    by (by try apply Permutation_map).
  rewrite (py_min_permutation (map snd corners) (map snd corners'))
    by (by try apply Permutation_map).
  rewrite (py_max_permutation (map snd corners) (map snd corners'))
    by (by try apply Permutation_map).
  done.
Qed.

Lemma grid_coordinates_permutation_witness :
  grid_coordinates PrimFloat.ltb np_linspace (rev COORDINATES) 8
  = Return weather_area.
Proof.
  rewrite <- (grid_coordinates_permutation COORDINATES (rev COORDINATES) 8).
  - vm_compute. reflexivity.
  - apply Permutation_rev.
  - vm_compute. reflexivity.
  - vm_compute. reflexivity.
Defined.



(** ** The time spent in the retry loop *)

Lemma retry_seconds_app evs1 evs2 :
  retry_seconds (evs1 ++ evs2) = retry_seconds evs1 + retry_seconds evs2.
Proof.
  induction evs1 as [|ev evs1 IH]; [done|].
  destruct ev as [| | | |[z|f]| |]; simpl; rewrite ?IH; lia.
Qed.

Section RetryBudget.

Variable env : Env.
Variables database collection : string.

(** From attempt [first] on, with [k + 1] attempts left before the one that
    gives up: the pauses add up to no more than the squares of
    [first + 1 .. first + k]. *)
Lemma retry_loop_seconds doc max_retries (k : nat) : ∀ (first : nat) w,
  Z.of_nat (first + k + 1) = max_retries →
  ∃ evs,
    trace (for_each (map Z.of_nat (seq first (k + 2)))
             (insert_attempt env database collection doc max_retries) w).2
    = trace w ++ evs
    ∧ 0 ≤ retry_seconds evs
    ∧ 6 * retry_seconds evs
      ≤ Z.of_nat (first + k) * (Z.of_nat (first + k) + 1)
          * (2 * Z.of_nat (first + k) + 1)
        - Z.of_nat first * (Z.of_nat first + 1) * (2 * Z.of_nat first + 1).
Proof.
  induction k as [|k IH]; intros first w Hfirst;
    cbn [Nat.add seq map]; rewrite for_each_cons.
  - destruct (insert_one env (insert_calls w)) as [r|e] eqn:Hone.
    + rewrite insert_attempt_ok with (r := r) by done.
      eexists. split; [done|]. simpl. rewrite Nat.add_0_r. lia.
    + destruct (issubclass e AutoReconnect) eqn:Hsub.
      * rewrite insert_attempt_final with (e := e) by (done || lia).
        eexists. split; [done|]. simpl. rewrite Nat.add_0_r. lia.
      * rewrite insert_attempt_other with (e := e) by done.
        eexists. split; [done|]. simpl. rewrite Nat.add_0_r. lia.
  - destruct (insert_one env (insert_calls w)) as [r|e] eqn:Hone.
    + rewrite insert_attempt_ok with (r := r) by done.
      eexists. split; [done|]. simpl. nia.
    + destruct (issubclass e AutoReconnect) eqn:Hsub.
      * rewrite insert_attempt_retry; [| by exists e | lia].
        destruct (IH (S first)
                    (advance w 1 (failed_round database collection doc
                                    (Z.of_nat first))))
          as (evs & Htrace & Hpos & Hbound); [lia|].
        cbn [Nat.add seq map] in Htrace.
        exists (failed_round database collection doc (Z.of_nat first)
                ++ evs).
        rewrite Htrace. split; [simpl; by rewrite <- app_assoc|].
        rewrite retry_seconds_app.
        change (retry_seconds
                  (failed_round database collection doc (Z.of_nat first)))
          with ((Z.of_nat first + 1) ^ 2 + 0).
        replace (S first + k)%nat with (first + S k)%nat in Hbound by lia.
        split; nia.
      * rewrite insert_attempt_other with (e := e) by done.
        eexists. split; [done|]. simpl. nia.
Qed.

(** Whatever the driver answers, a call with [max_retries >= 1] sleeps for
    at most [1 + 4 + ... + (max_retries - 1)^2] seconds, that is
    [(max_retries - 1) * max_retries * (2 * max_retries - 1) / 6]. *)
Theorem insert_sleeps_at_most d max_retries w :
  1 ≤ max_retries →
  ∃ evs,
    trace (insert_data_to_mongodb env database collection (VDict d)
             max_retries w).2
    = trace w ++ evs
    ∧ 0 ≤ retry_seconds evs
    ∧ 6 * retry_seconds evs
      ≤ (max_retries - 1) * max_retries * (2 * max_retries - 1).
Proof.
  intros Hm. rewrite insert_data_to_mongodb_dict. unfold py_range.
  replace (Z.to_nat (max_retries + 1))
    with (Z.to_nat max_retries - 1 + 2)%nat by lia.
  destruct (retry_loop_seconds
              (VDict (stamp d (utc_now env (clock_reads w)))) max_retries
              (Z.to_nat max_retries - 1) 0 (after_now w))
    as (evs & Htrace & Hpos & Hbound); [lia|].
  exists (EvNow :: evs). rewrite Htrace.
  split; [simpl; by rewrite <- app_assoc|].
  change (retry_seconds (EvNow :: evs)) with (retry_seconds evs).
  split; [done|].
  replace (Z.of_nat (0 + (Z.to_nat max_retries - 1))) with (max_retries - 1)
    in Hbound by lia.
  nia.
Qed.

End RetryBudget.

(** With [max_retries = 5] the bound is 30 seconds, and a store that never
    comes back takes all of it. *)
Lemma insert_sleeps_at_most_witness :
  let run := insert_data_to_mongodb (sample_env no_http store_down)
               "weather-tracking-system" "open-weather-raw"
               (VDict reading_temp) 5 initial_world in
  (∃ evs,
     trace run.2 = trace initial_world ++ evs
     ∧ 0 ≤ retry_seconds evs
     ∧ 6 * retry_seconds evs ≤ (5 - 1) * 5 * (2 * 5 - 1))
  ∧ retry_seconds (trace run.2) = 30.
Proof.
  intros run. split; [|vm_compute; reflexivity].
  apply (insert_sleeps_at_most (sample_env no_http store_down)
           "weather-tracking-system" "open-weather-raw" reading_temp 5
           initial_world).
  lia.
Defined.

(** ** A body that is no object *)

(** A response with status 200 whose body is JSON but no object (a list, a
    string, a number, [true], [null]) is not skipped, and cannot be stored:
    the loop body raises [TypeError], from [len] or from the assignment of
    [processed_at], before the driver is reached. *)
Theorem non_object_reading_raises_TypeError env processed_data lat lon w
    resp v :
  requests_get env (http_calls w) = Ok resp →
  status_code resp = 200 →
  json_loads env (text resp) = Some v →
  (∀ d, v ≠ VDict d) →
  let run := ingest_point env processed_data (lat, lon) w in
  run.1 = Raise TypeError ∧ insert_calls run.2 = insert_calls w.
Proof.
  intros Hget Hstatus Hjson Hv run. subst run.
  rewrite ingest_point_unfold.
  rewrite get_current_weather_200 with (resp := resp) (v := v) by done.
  destruct v; try (by split). by destruct (Hv d).
Qed.

Lemma non_object_reading_raises_TypeError_witness :
  let env :=
    {| APIKEY := "owm-key";
       MONGODB_URI := "mongodb://localhost:27017";
       HEALTHCHECK_URL := "https://hc.example/ping";
       json_loads := λ s, if decide (s = "[]") then Some (VList []) else None;
       requests_get := http_always 200 "[]";
       admin_ping := Ok tt;
       insert_one := store_up;
       utc_now := λ n, Z.of_nat n |} in
  let run := ingest_point env 0 (2.066438, 117.560116)%float initial_world in
  run.1 = Raise TypeError ∧ insert_calls run.2 = 0%nat.
Proof.
  intros env.
  apply (non_object_reading_raises_TypeError env 0 2.066438 117.560116
           initial_world {| status_code := 200; text := "[]" |} (VList []));
    [ reflexivity | reflexivity | reflexivity | intros d; discriminate ].
Defined.
